(** * Unplanned Reoperation Risk Prediction System: the form script [app.py]

    A shallow embedding of the Streamlit script: the registry of input
    fields ([VARIABLE_CONFIG]), the loop that builds one number-input widget
    per field and collects the record [inputs], and the "Predict Risk"
    handler (data frame, classifier call, risk label, SHAP explanation,
    catch-all error display).

    Python dictionaries are association lists in insertion order, integers
    are [Z], the probability is a binary64 float.  The third-party
    collaborators (joblib, the classifier, shap, the widget front end) are
    the fields of an environment record; every call the script makes is
    recorded in a trace, and a call of a collaborator may raise. *)

From Stdlib Require Import ZArith List String Ascii Bool Lia PrimFloat.
Import ListNotations.

Local Open Scope string_scope.
Local Open Scope Z_scope.

(* ===================================================================== *)
(** ** Python dictionaries with string keys *)
(* ===================================================================== *)

Module PyDict.

Section Dict.
Context {V : Type}.

(** Insertion-ordered: the list holds the items in the order of
    [d.items()]. *)
Definition dict : Type := list (string * V).

(** [d[k] = v]: an existing key keeps its place, a new key goes last. *)
Fixpoint setitem (d : dict) (k : string) (v : V) : dict :=
  match d with
  | [] => [(k, v)]
  | (k', v') :: d' =>
      if String.eqb k' k then (k', v) :: d'
      else (k', v') :: setitem d' k v
  end.

(** [d.get(k)] *)
Fixpoint get (d : dict) (k : string) : option V :=
  match d with
  | [] => None
  | (k', v') :: d' => if String.eqb k' k then Some v' else get d' k
  end.

Definition items (d : dict) : list (string * V) := d.
Definition keys (d : dict) : list string := map fst d.
Definition values (d : dict) : list V := map snd d.

(** A dictionary display [{k1: v1, k2: v2, ...}]: the items are stored
    from left to right. *)
Definition literal (kvs : list (string * V)) : dict :=
  fold_left (fun d kv => setitem d (fst kv) (snd kv)) kvs [].

(** [k in l] for a list of strings. *)
Definition mem (k : string) (l : list string) : bool :=
  existsb (String.eqb k) l.
End Dict.

Arguments dict V : clear implicits.

End PyDict.

Import PyDict.

(* ===================================================================== *)
(** ** The registry of input fields *)
(* ===================================================================== *)

Module Config.
(** One value of [VARIABLE_CONFIG]: [{"min": .., "max": .., "description": ..}]. *)
Record t : Type := make { min : Z; max : Z; description : string }.
End Config.

Definition VARIABLE_CONFIG : dict Config.t :=
  literal
    [ ("Sex", Config.make 0 1 "Patient gender (0=Female, 1=Male)");
      ("ASA scores", Config.make 0 5 "ASA physical status classification");
      ("tumor location", Config.make 1 4 "Tumor location code (1-4)");
      ("Benign or malignant", Config.make 0 1 "Tumor nature (0=Benign, 1=Malignant)");
      ("Admitted to NICU", Config.make 0 1 "NICU admission status");
      ("Duration of surgery", Config.make 0 1 "Surgery duration category");
      ("diabetes", Config.make 0 1 "Diabetes mellitus status");
      ("CHF", Config.make 0 1 "Congestive heart failure");
      ("Functional dependencies", Config.make 0 1 "Functional dependencies");
      ("mFI-5", Config.make 0 5 "Modified Frailty Index");
      ("Type of tumor", Config.make 1 5 "Tumor type code (1-5)") ].

(** The bounds of a registry item, as the field table lists them. *)
Definition bounds (item : string * Config.t) : string * Z * Z :=
  (fst item, Config.min (snd item), Config.max (snd item)).

Definition min_le_max (item : string * Config.t) : Prop :=
  Config.min (snd item) <= Config.max (snd item).

(* ===================================================================== *)
(** ** Values exchanged with the libraries *)
(* ===================================================================== *)

(** A raised Python exception: whether its class derives from [Exception]
    (what [except Exception] catches; [KeyboardInterrupt], [SystemExit]
    and the like do not) and its [str(e)]. *)
Record exn : Type := { is_Exception : bool; str : string }.

Inductive outcome (A : Type) : Type :=
| Ret (a : A)
| Raise (e : exn).
Arguments Ret {A} a.
Arguments Raise {A} e.

(** The keyword arguments of one [st.number_input] call. *)
Record NumberInputArgs : Type := {
  label : string;
  min_value : Z;
  max_value : Z;
  value : Z;
  step : Z;
  key : string
}.

(** The largest integer the front end can hold: [(1 << 53) - 1]. *)
Definition JS_MAX_SAFE : Z := 2 ^ 53 - 1.

Definition js_safe (z : Z) : bool := (- JS_MAX_SAFE <=? z) && (z <=? JS_MAX_SAFE).

(** The check [st.number_input] makes on its integer arguments before it
    shows the widget: the default lies within the limits, and the limits,
    the step and the default are integers the front end can hold. *)
Definition accepted (a : NumberInputArgs) : bool :=
  (min_value a <=? value a) && (value a <=? max_value a)
  && js_safe (min_value a) && js_safe (max_value a)
  && js_safe (step a) && js_safe (value a).

(** A pandas data frame of integers: column labels and rows; a cell that a
    record does not supply is missing ([None], pandas' NaN). *)
Record DataFrame : Type := {
  columns : list string;
  rows : list (list (option Z))
}.

(** [pd.DataFrame(data)] for a list of records: the columns are the keys in
    the order in which they are first met, one row per record. *)
Definition pd_DataFrame (data : list (dict Z)) : DataFrame :=
  let cols :=
    fold_left
      (fun acc d =>
         fold_left (fun acc k => if mem k acc then acc else (acc ++ [k])%list)
                   (keys d) acc)
      data [] in
  {| columns := cols;
     rows := map (fun d => map (get d) cols) data |}.

(** [risk_level = "High Risk" if proba > 0.5 else "Low Risk"] *)
Definition risk_level (proba : float) : string :=
  if PrimFloat.ltb 0.5%float proba then "High Risk" else "Low Risk".

(** [color = "#FF4B4B" if proba > 0.5 else "#00CC96"] *)
Definition color (proba : float) : string :=
  if PrimFloat.ltb 0.5%float proba then "#FF4B4B" else "#00CC96".

(** The centred heading that shows the risk level. *)
Definition heading (color risk_level : string) : string :=
  "<h2 style='text-align: center; color: " ++ color ++ ";'>"
    ++ risk_level ++ "</h2>".

(** The label and limits the form gives to the widget of one field. *)
Definition widget_args (item : string * Config.t) : NumberInputArgs :=
  let (feature, config) := item in
  {| label := feature ++ " (" ++ Config.description config ++ ")";
     min_value := Config.min config;
     max_value := Config.max config;
     value := Config.min config;
     step := 1;
     key := feature |}.

(** [enumerate(l)] *)
Definition enumerate {A : Type} (l : list A) : list (nat * A) :=
  combine (seq 0 (List.length l)) l.

(** A value lies within the limits of a registry field. *)
Definition within (config : Config.t) (v : Z) : Prop :=
  Config.min config <= v <= Config.max config.

(** An entry of the record belongs to a registry item and lies within its
    limits. *)
Definition entry_within (item : string * Config.t) (entry : string * Z) : Prop :=
  fst entry = fst item /\ within (snd item) (snd entry).

(** The sidebar text. *)
Definition USER_GUIDE : string :=
"
    ## User Guide
    
    ### Input Requirements:
    1. All inputs should be integer values
    2. Numerical ranges are enforced for each parameter
    3. Default values set to minimum acceptable values
    
    ### Code Definitions:
    - **ASA scores**: 0-5 scale (0=Healthy, 5=Morbund)
    - **mFI-5**: 0-5 scale measuring frailty
    - **Tumor codes**: Numerical classification per institutional protocol
    ".

(* ===================================================================== *)
(** ** The script as a computation over the libraries *)
(* ===================================================================== *)

Section Script.
(** The hidden state of the libraries, and the objects they hand out. *)
Context {LibState Model Explainer ShapRow Expected Fig : Type}.

(** What one run of the script does, in order: the calls into the
    libraries and the elements written to the page. *)
Inductive Event : Type :=
| Joblib_load (path : string)
| St_set_page_config (page_title layout : string)
| St_title (body : string)
| St_markdown (body : string) (unsafe_allow_html : bool)
| St_columns (n : nat)
| St_number_input (col : nat) (args : NumberInputArgs)
| St_button (text type : string)
| Predict_proba (model : Model) (X : DataFrame)
| St_subheader (body : string)
| St_write (body : string)
| New_TreeExplainer (model : Model)
| Shap_values (explainer : Explainer) (X : DataFrame)
| St_expander (text : string)
| Summary_plot (shap_values : list ShapRow) (X : DataFrame)
    (plot_type : string) (show : bool)
| St_pyplot (fig : Fig)
| Force_plot (base : Expected) (row : ShapRow) (X : DataFrame)
    (matplotlib : bool)
| St_error (body : string)
| St_sidebar_markdown (body : string).

(** The libraries and the front end of one run. *)
Record Env : Type := {
  abspath : string -> string;
  joblib_load : string -> LibState -> outcome Model * LibState;
  (** the value the front end reports for a widget *)
  number_input : NumberInputArgs -> Z;
  (** the text of the exception of a widget whose arguments are refused *)
  number_input_error : NumberInputArgs -> string;
  (** whether the button was clicked *)
  button : string -> bool;
  predict_proba : Model -> DataFrame -> LibState -> outcome (list (list float)) * LibState;
  (** [f"{proba:.1%}"] *)
  format_percent : float -> string;
  TreeExplainer : Model -> LibState -> outcome Explainer * LibState;
  shap_values : Explainer -> DataFrame -> LibState -> outcome (list ShapRow) * LibState;
  expected_value : Explainer -> Expected;
  summary_plot : list ShapRow -> DataFrame -> LibState -> outcome Fig * LibState;
  force_plot : Expected -> ShapRow -> DataFrame -> LibState -> outcome Fig * LibState;
  (** whether [st.pyplot] takes what it is given as a figure *)
  pyplot : Fig -> outcome unit;
  (** the text of the [IndexError] for an index and a size *)
  index_error_str : nat -> nat -> string
}.

(** The state of a computation after it stopped: how it ended, the
    libraries' state, and what it did. *)
Record Run (A : Type) : Type := {
  result : outcome A;
  ext : LibState;
  trace : list Event
}.
Arguments result {A} r.
Arguments ext {A} r.
Arguments trace {A} r.

Definition M (A : Type) : Type := LibState -> Run A.

Definition ret {A : Type} (a : A) : M A :=
  fun s => {| result := Ret a; ext := s; trace := [] |}.

Definition raise {A : Type} (e : exn) : M A :=
  fun s => {| result := Raise e; ext := s; trace := [] |}.

(** What was done before is put in front of what a run did. *)
Definition prepend {A : Type} (done : list Event) (r : Run A) : Run A :=
  let (res, s, t) := r in
  {| result := res; ext := s; trace := (done ++ t)%list |}.

Definition bind {A B : Type} (m : M A) (k : A -> M B) : M B :=
  fun s =>
    let (res, s1, t1) := m s in
    match res with
    | Ret a => prepend t1 (k a s1)
    | Raise e => {| result := Raise e; ext := s1; trace := t1 |}
    end.

(** A page element: recorded, never fails. *)
Definition st (ev : Event) : M unit :=
  fun s => {| result := Ret tt; ext := s; trace := [ev] |}.

(** A call into a library: recorded, may raise, may change the
    library's state. *)
Definition call {A : Type} (ev : Event) (f : LibState -> outcome A * LibState) : M A :=
  fun s =>
    let (res, s1) := f s in
    {| result := res; ext := s1; trace := [ev] |}.

(** [try: body  except Exception as e: handler(e)] *)
Definition try_except (body : M unit) (handler : exn -> M unit) : M unit :=
  fun s =>
    let (res, s1, t1) := body s in
    match res with
    | Ret u => {| result := Ret u; ext := s1; trace := t1 |}
    | Raise e =>
        if is_Exception e then prepend t1 (handler e s1)
        else {| result := Raise e; ext := s1; trace := t1 |}
    end.
End Script.

Arguments Event : clear implicits.
Arguments Env : clear implicits.
Arguments Run : clear implicits.
Arguments M : clear implicits.
Arguments result {LibState Model Explainer ShapRow Expected Fig A} r.
Arguments ext {LibState Model Explainer ShapRow Expected Fig A} r.
Arguments trace {LibState Model Explainer ShapRow Expected Fig A} r.

Declare Scope script_scope.
Delimit Scope script_scope with script.
Notation "x <- m ;; k" := (bind m (fun x => k))
  (at level 61, m at next level, right associativity) : script_scope.
Notation "m ;; k" := (bind m (fun _ => k))
  (at level 61, right associativity) : script_scope.

Local Open Scope script_scope.

Section App.
Context {LibState Model Explainer ShapRow Expected Fig : Type}.
Variable env : Env LibState Model Explainer ShapRow Expected Fig.

#[local] Abbreviation Ev := (Event Model Explainer ShapRow Expected Fig).
#[local] Abbreviation Comp := (M LibState Model Explainer ShapRow Expected Fig).

(** [l[i]] for a constant index [i >= 0]. *)
Definition index {A : Type} (l : list A) (i : nat) : Comp A :=
  match nth_error l i with
  | Some a => ret a
  | None =>
      raise {| is_Exception := true;
               str := index_error_str env i (List.length l) |}
  end.

(** [st.number_input(...)] in column [col]: raises when the arguments are
    refused, returns the value the front end holds for the widget
    otherwise. *)
Definition st_number_input (col : nat) (args : NumberInputArgs) : Comp Z :=
  fun s =>
    {| result :=
         if accepted args then Ret (number_input env args)
         else Raise {| is_Exception := true;
                       str := number_input_error env args |};
       ext := s;
       trace := [St_number_input col args] |}.

(** [st.pyplot(fig)]: raises when it is given no figure it can show. *)
Definition st_pyplot (fig : Fig) : Comp unit :=
  fun s => {| result := pyplot env fig; ext := s; trace := [St_pyplot fig] |}.

(** [st.button(text, type=...)] *)
Definition st_button (text type : string) : Comp bool :=
  fun s =>
    {| result := Ret (button env text); ext := s;
       trace := [St_button text type] |}.

(** The loop over [enumerate(VARIABLE_CONFIG.items())]: one widget per
    field, in column [i % 2], its value stored in [inputs[feature]]. *)
Fixpoint form (its : list (nat * (string * Config.t))) (inputs : dict Z)
  : Comp (dict Z) :=
  match its with
  | [] => ret inputs
  | (i, (feature, config)) :: rest =>
      v <- st_number_input (i mod 2)%nat (widget_args (feature, config)) ;;
      form rest (setitem inputs feature v)
  end.

(** [input_df = pd.DataFrame([inputs])] *)
Definition input_df (inputs : dict Z) : DataFrame := pd_DataFrame [inputs].

(** The body of the [try] block of the "Predict Risk" handler. *)
Definition predict_body (model : Model) (inputs : dict Z) : Comp unit :=
  let input_df := input_df inputs in
  probs <- call (Predict_proba model input_df)
                (predict_proba env model input_df) ;;
  row <- index probs 0 ;;
  proba <- index row 1 ;;
  let risk_level := risk_level proba in
  let color := color proba in
  st (St_markdown "---" false) ;;
  st (St_subheader "Prediction Results") ;;
  st (St_markdown (heading color risk_level) true) ;;
  st (St_write ("### Reoperation Probability: " ++ format_percent env proba)) ;;
  st (St_markdown "---" false) ;;
  st (St_subheader "Model Interpretation") ;;
  explainer <- call (New_TreeExplainer model) (TreeExplainer env model) ;;
  shap_values <- call (Shap_values explainer input_df)
                      (shap_values env explainer input_df) ;;
  st (St_expander "Global Feature Importance") ;;
  fig_global <- call (Summary_plot shap_values input_df "bar" false)
                     (summary_plot env shap_values input_df) ;;
  st_pyplot fig_global ;;
  st (St_expander "Individual Feature Impact") ;;
  row0 <- index shap_values 0 ;;
  fig_local <- call (Force_plot (expected_value env explainer) row0 input_df true)
                    (force_plot env (expected_value env explainer) row0 input_df) ;;
  st_pyplot fig_local.

(** The handler: the body under [try], and
    [except Exception as e: st.error(f"Error: {str(e)}")]. *)
Definition predict_risk (model : Model) (inputs : dict Z) : Comp unit :=
  try_except (predict_body model inputs)
             (fun e => st (St_error ("Error: " ++ str e))).

Definition model_path : string := abspath env "best_model.pkl".

(** One run of the script, from top to bottom. *)
Definition app : Comp unit :=
  model <- call (Joblib_load model_path) (joblib_load env model_path) ;;
  st (St_set_page_config "Surgical Risk System" "wide") ;;
  st (St_title "Unplanned Reoperation Risk Prediction System") ;;
  st (St_markdown "---" false) ;;
  st (St_columns 2) ;;
  inputs <- form (enumerate (items VARIABLE_CONFIG)) [] ;;
  clicked <- st_button "Predict Risk" "primary" ;;
  (if clicked then predict_risk model inputs else ret tt) ;;
  st (St_sidebar_markdown USER_GUIDE).

(** The record the form holds when the loop is over. *)
Definition form_inputs : dict Z :=
  map (fun item => (fst item, number_input env (widget_args item)))
      (items VARIABLE_CONFIG).

(** *** Properties of a run and of the libraries *)

Definition is_load (ev : Ev) : bool :=
  match ev with Joblib_load _ => true | _ => false end.
Definition is_predict_proba (ev : Ev) : bool :=
  match ev with Predict_proba _ _ => true | _ => false end.
Definition is_new_explainer (ev : Ev) : bool :=
  match ev with New_TreeExplainer _ => true | _ => false end.
Definition is_shap_values (ev : Ev) : bool :=
  match ev with Shap_values _ _ => true | _ => false end.
Definition is_summary_plot (ev : Ev) : bool :=
  match ev with Summary_plot _ _ _ _ => true | _ => false end.
Definition is_force_plot (ev : Ev) : bool :=
  match ev with Force_plot _ _ _ _ => true | _ => false end.
Definition is_error (ev : Ev) : bool :=
  match ev with St_error _ => true | _ => false end.
Definition is_write (ev : Ev) : bool :=
  match ev with St_write _ => true | _ => false end.

Definition count (p : Ev -> bool) (tr : list Ev) : nat :=
  List.length (filter p tr).

(** The model an event works on, if it is a call on a model. *)
Definition model_of (ev : Ev) : option Model :=
  match ev with
  | Predict_proba m _ => Some m
  | New_TreeExplainer m => Some m
  | _ => None
  end.

(** Every call on a model in a trace is a call on [model]. *)
Definition only_model (model : Model) (tr : list Ev) : Prop :=
  Forall (fun ev => forall m, model_of ev = Some m -> m = model) tr.

(** What the handler puts on the page once it holds the probability. *)
Definition results (proba : float) : list Ev :=
  [ St_markdown "---" false;
    St_subheader "Prediction Results";
    St_markdown (heading (color proba) (risk_level proba)) true;
    St_write ("### Reoperation Probability: " ++ format_percent env proba) ].

(** A library call whose answer does not depend on the libraries' state. *)
Definition stateless {A : Type} (f : LibState -> outcome A * LibState) : Prop :=
  forall s s', fst (f s) = fst (f s').

(** The classifier and the explainer are fixed: their answers depend on
    their arguments only. *)
Definition fixed_artifacts : Prop :=
  (forall m X, stateless (predict_proba env m X)) /\
  (forall m, stateless (TreeExplainer env m)) /\
  (forall e X, stateless (shap_values env e X)) /\
  (forall v X, stateless (summary_plot env v X)) /\
  (forall b r X, stateless (force_plot env b r X)).

(** The widget keeps its value within the limits it is given, whenever
    its default lies within them. *)
Definition respects_limits : Prop :=
  forall a, min_value a <= value a <= max_value a ->
            min_value a <= number_input env a <= max_value a.

(** No widget has been edited: each reports its default. *)
Definition untouched : Prop :=
  forall a, number_input env a = value a.
End App.

(** What the page and the classifier see of a run: how it ended and what
    it did. *)
Definition observed {LibState Model Explainer ShapRow Expected Fig A : Type}
  (r : Run LibState Model Explainer ShapRow Expected Fig A)
  : outcome A * list (Event Model Explainer ShapRow Expected Fig) :=
  (result r, trace r).

(** A computation whose outcome and trace do not depend on the libraries'
    state it starts from. *)
Definition det {LibState Model Explainer ShapRow Expected Fig A : Type}
  (m : M LibState Model Explainer ShapRow Expected Fig A) : Prop :=
  forall s s', observed (m s) = observed (m s').

(* ===================================================================== *)
(** ** Reading a trace *)
(* ===================================================================== *)

(** The library calls of the script, by kind. *)
Inductive LibCall : Type :=
| Call_joblib_load
| Call_predict_proba
| Call_TreeExplainer
| Call_shap_values
| Call_summary_plot
| Call_force_plot.

(** The elements of a list on which [f] answers, in order. *)
Fixpoint pick {A B : Type} (f : A -> option B) (l : list A) : list B :=
  match l with
  | [] => []
  | a :: l' =>
      match f a with
      | Some b => b :: pick f l'
      | None => pick f l'
      end
  end.

Section Observers.
Context {Model Explainer ShapRow Expected Fig : Type}.

#[local] Abbreviation Ev := (Event Model Explainer ShapRow Expected Fig).

(** The arguments of a widget event. *)
Definition widget_of (ev : Ev) : option NumberInputArgs :=
  match ev with St_number_input _ args => Some args | _ => None end.

(** The column a widget event is shown in. *)
Definition column_of (ev : Ev) : option nat :=
  match ev with St_number_input col _ => Some col | _ => None end.

(** The kind of library call an event is, if it is one. *)
Definition call_of (ev : Ev) : option LibCall :=
  match ev with
  | Joblib_load _ => Some Call_joblib_load
  | Predict_proba _ _ => Some Call_predict_proba
  | New_TreeExplainer _ => Some Call_TreeExplainer
  | Shap_values _ _ => Some Call_shap_values
  | Summary_plot _ _ _ _ => Some Call_summary_plot
  | Force_plot _ _ _ _ => Some Call_force_plot
  | _ => None
  end.

(** The frame a library call is given, if it is given one. *)
Definition frame_of (ev : Ev) : option DataFrame :=
  match ev with
  | Predict_proba _ X => Some X
  | Shap_values _ X => Some X
  | Summary_plot _ X _ _ => Some X
  | Force_plot _ _ X _ => Some X
  | _ => None
  end.

(** An element written to the page (not a library call). *)
Definition is_page (ev : Ev) : bool :=
  match call_of ev with Some _ => false | None => true end.

(** Every library call of a trace that is given a frame is given [X]. *)
Definition only_frame (X : DataFrame) (tr : list Ev) : Prop :=
  Forall (fun ev => forall X', frame_of ev = Some X' -> X' = X) tr.

(** What the script writes before the form, once the model is loaded. *)
Definition page_head : list Ev :=
  [ St_set_page_config "Surgical Risk System" "wide";
    St_title "Unplanned Reoperation Risk Prediction System";
    St_markdown "---" false;
    St_columns 2 ].

(** The widgets of the form, as the loop shows them. *)
Definition form_widgets (registry : dict Config.t) : list Ev :=
  map (fun it => St_number_input (fst it mod 2)%nat (widget_args (snd it)))
      (enumerate (items registry)).
End Observers.



(** The order in which the handler calls the libraries. *)
Definition handler_calls : list LibCall :=
  [ Call_predict_proba; Call_TreeExplainer; Call_shap_values;
    Call_summary_plot; Call_force_plot ].

(** The default of a widget is legal: it lies within the widget's limits,
    at the lower one, and the widget moves in steps of 1. *)
Definition legal_default (a : NumberInputArgs) : Prop :=
  min_value a <= value a <= max_value a /\ value a = min_value a /\ step a = 1.

(* ===================================================================== *)
(** ** A stand-in for the libraries, to run the script on concrete inputs *)
(* ===================================================================== *)

Definition ValueError (msg : string) : exn :=
  {| is_Exception := true; str := msg |}.

(** A front end: [entered] holds what the user typed, by widget key; the
    widget ignores an entry outside its limits and shows its default when
    nothing was typed. *)
Definition stub_number_input (entered : dict Z) (a : NumberInputArgs) : Z :=
  match get entered (key a) with
  | Some v => if (min_value a <=? v) && (v <=? max_value a) then v else value a
  | None => value a
  end.

(** A classifier fitted on eleven columns, which refuses any other frame,
    and an explainer for it.  The libraries' state counts their calls. *)
Definition stub_env (entered : dict Z) (clicked : bool)
  : Env nat unit unit (list Z) Z string :=
  {| abspath := fun p => "/app/" ++ p;
     joblib_load := fun _ n => (Ret tt, S n);
     number_input := stub_number_input entered;
     number_input_error := fun _ => "The default value is outside the limits";
     button := fun _ => clicked;
     predict_proba := fun _ X n =>
       if Nat.eqb (List.length (columns X)) 11
       then (Ret [[0.25; 0.75]%float], S n)
       else (Raise (ValueError "X has a different number of features than the fitted model"), S n);
     format_percent := fun _ => "75.0%";
     TreeExplainer := fun _ n => (Ret tt, S n);
     shap_values := fun _ X n =>
       (Ret [map (fun _ => 0) (columns X); map (fun _ => 0) (columns X)], S n);
     expected_value := fun _ => 0;
     summary_plot := fun _ _ n => (Ret "summary", S n);
     force_plot := fun _ _ _ n => (Ret "force", S n);
     pyplot := fun _ => Ret tt;
     index_error_str := fun _ _ => "index out of range" |}.

(** Libraries that answer as told: the outcome of loading the model, of
    the classifier, of building the explainer and of the attribution are
    given; the plots succeed; the widgets are untouched. *)
Definition scripted_env (load : outcome unit)
  (probs : outcome (list (list float))) (explainer : outcome unit)
  (attributions : outcome (list (list Z))) (clicked : bool)
  : Env nat unit unit (list Z) Z string :=
  {| abspath := fun p => "/app/" ++ p;
     joblib_load := fun _ n => (load, S n);
     number_input := value;
     number_input_error := fun _ => "The default value is outside the limits";
     button := fun _ => clicked;
     predict_proba := fun _ _ n => (probs, S n);
     format_percent := fun _ => "25.0%";
     TreeExplainer := fun _ n => (explainer, S n);
     shap_values := fun _ _ n => (attributions, S n);
     expected_value := fun _ => 0;
     summary_plot := fun _ _ n => (Ret "summary", S n);
     force_plot := fun _ _ _ n => (Ret "force", S n);
     pyplot := fun _ => Ret tt;
     index_error_str := fun _ _ => "index out of bounds" |}.

(** The same libraries with an [st.pyplot] that answers [out] whatever it
    is given. *)
Definition with_pyplot {LibState Model Explainer ShapRow Expected Fig : Type}
  (env : Env LibState Model Explainer ShapRow Expected Fig) (out : outcome unit)
  : Env LibState Model Explainer ShapRow Expected Fig :=
  {| abspath := abspath env;
     joblib_load := joblib_load env;
     number_input := number_input env;
     number_input_error := number_input_error env;
     button := button env;
     predict_proba := predict_proba env;
     format_percent := format_percent env;
     TreeExplainer := TreeExplainer env;
     shap_values := shap_values env;
     expected_value := expected_value env;
     summary_plot := summary_plot env;
     force_plot := force_plot env;
     pyplot := fun _ => out;
     index_error_str := index_error_str env |}.

(** [StreamlitAPIException], an [Exception]. *)
Definition StreamlitAPIException (msg : string) : exn :=
  {| is_Exception := true; str := msg |}.

(** A registry whose second field has its min above its max. *)
Definition bad_registry : dict Config.t :=
  [ ("Sex", Config.make 0 1 "Patient gender (0=Female, 1=Male)");
    ("Age", Config.make 18 0 "Age in years");
    ("CHF", Config.make 0 1 "Congestive heart failure") ].

(** [FileNotFoundError]: the model file is not there. *)
Definition FileNotFoundError (msg : string) : exn :=
  {| is_Exception := true; str := msg |}.

(** [KeyboardInterrupt]: not an [Exception]. *)
Definition KeyboardInterrupt : exn :=
  {| is_Exception := false; str := "" |}.

(** The example record of the specification. *)
Definition example_record : dict Z :=
  [ ("Sex", 1); ("ASA scores", 2); ("tumor location", 1);
    ("Benign or malignant", 0); ("Admitted to NICU", 0);
    ("Duration of surgery", 0); ("diabetes", 0); ("CHF", 0);
    ("Functional dependencies", 0); ("mFI-5", 1); ("Type of tumor", 2) ].

(** The example record without "CHF". *)
Definition record_no_chf : dict Z :=
  filter (fun kv => negb (String.eqb (fst kv) "CHF")) example_record.

(* ===================================================================== *)
(** ** The registry *)
(* ===================================================================== *)

Lemma VARIABLE_CONFIG_keys :
  keys VARIABLE_CONFIG =
  [ "Sex"; "ASA scores"; "tumor location"; "Benign or malignant";
    "Admitted to NICU"; "Duration of surgery"; "diabetes"; "CHF";
    "Functional dependencies"; "mFI-5"; "Type of tumor" ].
Proof. reflexivity. Qed.

Lemma VARIABLE_CONFIG_NoDup : NoDup (keys VARIABLE_CONFIG).
Proof.
  rewrite VARIABLE_CONFIG_keys.
  repeat (constructor; [cbn; intuition discriminate |]).
  constructor.
Qed.

(** C2: the registry lists exactly eleven fields, with the names and the
    inclusive bounds of the field table, in this order (the registry is a
    constant, so the order is the same whenever it is read). *)
Theorem VARIABLE_CONFIG_fields :
  map bounds (items VARIABLE_CONFIG) =
  [ ("Sex", 0, 1); ("ASA scores", 0, 5); ("tumor location", 1, 4);
    ("Benign or malignant", 0, 1); ("Admitted to NICU", 0, 1);
    ("Duration of surgery", 0, 1); ("diabetes", 0, 1); ("CHF", 0, 1);
    ("Functional dependencies", 0, 1); ("mFI-5", 0, 5);
    ("Type of tumor", 1, 5) ]
  /\ List.length (items VARIABLE_CONFIG) = 11%nat.
Proof. split; reflexivity. Qed.

Lemma VARIABLE_CONFIG_min_le_max : Forall min_le_max (items VARIABLE_CONFIG).
Proof.
  unfold VARIABLE_CONFIG, literal, items; cbn.
  repeat constructor; unfold min_le_max; cbn; lia.
Qed.

Lemma VARIABLE_CONFIG_accepted :
  Forall (fun item => accepted (widget_args item) = true) (items VARIABLE_CONFIG).
Proof.
  unfold VARIABLE_CONFIG, literal, items; cbn.
  repeat constructor.
Qed.

(** C7: every field of the registry has min <= max, and no two fields
    share a name. *)
Theorem VARIABLE_CONFIG_wellformed :
  Forall min_le_max (items VARIABLE_CONFIG) /\ NoDup (keys VARIABLE_CONFIG).
Proof.
  split; [exact VARIABLE_CONFIG_min_le_max | exact VARIABLE_CONFIG_NoDup].
Qed.

(* ===================================================================== *)
(** ** The risk label *)
(* ===================================================================== *)

Lemma risk_level_High (proba : float) :
  risk_level proba = "High Risk" <-> PrimFloat.ltb 0.5%float proba = true.
Proof.
  unfold risk_level.
  destruct (PrimFloat.ltb 0.5%float proba); split; intros H;
    try reflexivity; discriminate H.
Qed.

Example risk_level_examples :
  risk_level 0.75%float = "High Risk"
  /\ risk_level 0.5%float = "Low Risk"
  /\ risk_level (PrimFloat.next_up 0.5%float) = "High Risk"
  /\ risk_level 0.25%float = "Low Risk"
  /\ risk_level PrimFloat.nan = "Low Risk"
  /\ color 0.75%float = "#FF4B4B"
  /\ color 0.5%float = "#00CC96".
Proof. vm_compute. repeat split; reflexivity. Qed.

Lemma risk_level_Low (proba : float) :
  risk_level proba = "Low Risk" <-> PrimFloat.ltb 0.5%float proba = false.
Proof.
  unfold risk_level.
  destruct (PrimFloat.ltb 0.5%float proba); split; intros H;
    try reflexivity; discriminate H.
Qed.

(* ===================================================================== *)
(** ** Dictionaries and data frames *)
(* ===================================================================== *)

Section DictFacts.
Context {V : Type}.
Implicit Types (d : dict V) (k : string) (v : V).

Lemma setitem_fresh d k v :
  ~ In k (keys d) -> setitem d k v = (d ++ [(k, v)])%list.
Proof.
  induction d as [| [k' v'] d IH]; cbn; intros Hk; [reflexivity |].
  destruct (String.eqb_spec k' k) as [-> | Hne].
  - exfalso; apply Hk; now left.
  - rewrite IH; [reflexivity | intros Hin; apply Hk; now right].
Qed.

Lemma keys_app d d' : keys (d ++ d')%list = (keys d ++ keys d')%list.
Proof. unfold keys; apply map_app. Qed.

(** Storing items with distinct new keys, one after the other, appends
    them in that order. *)
Lemma fold_setitem_fresh {A : Type} (name : A -> string) (f : A -> V)
      (l : list A) d :
  NoDup (keys d ++ map name l)%list ->
  fold_left (fun acc a => setitem acc (name a) (f a)) l d
  = (d ++ map (fun a => (name a, f a)) l)%list.
Proof.
  revert d; induction l as [| a l IH]; cbn; intros d Hnd.
  - now rewrite app_nil_r.
  - rewrite setitem_fresh.
    + rewrite IH.
      * now rewrite <- app_assoc.
      * rewrite keys_app; cbn. now rewrite <- app_assoc.
    + intros Hin. apply NoDup_remove_2 in Hnd. apply Hnd.
      apply in_or_app; now left.
Qed.


Lemma get_None_keys d k : get d k = None <-> ~ In k (keys d).
Proof.
  induction d as [| [k' v'] d IH]; cbn; [tauto |].
  destruct (String.eqb_spec k' k) as [-> | Hne].
  - split; [discriminate | intros H; exfalso; apply H; now left].
  - rewrite IH; intuition.
Qed.

(** Reading every key of a dictionary, in order, gives its values. *)
Lemma get_keys_values d :
  NoDup (keys d) -> map (get d) (keys d) = map Some (values d).
Proof.
  unfold keys, values.
  induction d as [| [k v] d IH]; cbn; intros Hnd; [reflexivity |].
  inversion Hnd as [| ? ? Hk Hnd']; subst.
  rewrite String.eqb_refl. f_equal.
  rewrite <- IH by assumption.
  apply map_ext_in; intros k' Hin.
  destruct (String.eqb_spec k k') as [-> | Hne]; [contradiction | reflexivity].
Qed.
End DictFacts.


Lemma mem_false (k : string) (l : list string) : ~ In k l -> mem k l = false.
Proof.
  intros Hk. unfold mem.
  destruct (existsb (String.eqb k) l) eqn:E; [| reflexivity].
  apply existsb_exists in E as (x & Hin & Heq).
  apply String.eqb_eq in Heq; subst x; contradiction.
Qed.

Lemma first_met_fresh (l acc : list string) :
  NoDup (acc ++ l)%list ->
  fold_left (fun acc k => if mem k acc then acc else (acc ++ [k])%list) l acc
  = (acc ++ l)%list.
Proof.
  revert acc; induction l as [| k l IH]; cbn; intros acc Hnd.
  - now rewrite app_nil_r.
  - rewrite mem_false.
    + rewrite IH; rewrite <- app_assoc; [reflexivity | exact Hnd].
    + apply NoDup_remove_2 in Hnd. intros Hin; apply Hnd.
      apply in_or_app; now left.
Qed.

(** The frame of one record has the record's keys as columns, in the
    record's order, and its values as the only row. *)
Lemma pd_DataFrame_single (d : dict Z) :
  NoDup (keys d) ->
  pd_DataFrame [d] = {| columns := keys d; rows := [map Some (values d)] |}.
Proof.
  intros Hnd. unfold pd_DataFrame; cbn.
  rewrite (first_met_fresh (keys d) []) by exact Hnd; cbn.
  now rewrite get_keys_values.
Qed.

(* ===================================================================== *)
(** ** Running the form and the handler *)
(* ===================================================================== *)

Lemma map_snd_enumerate {A : Type} (l : list A) : map snd (enumerate l) = l.
Proof.
  unfold enumerate. generalize 0%nat.
  induction l as [| a l IH]; cbn; intros n; [reflexivity |].
  now rewrite IH.
Qed.

(** Case analysis on the next library call of a run. *)
Ltac next_call :=
  match goal with
  | |- context [match ?l with [] => _ | _ :: _ => _ end] =>
      is_var l; destruct l; cbn
  | |- context [let (_, _) := ?f ?s in _] =>
      destruct (f s) as [[?|?] ?] eqn:?; cbn
  | |- context [match pyplot ?e ?f with _ => _ end] =>
      destruct (pyplot e f) as [[] | ?] eqn:?; cbn
  | |- context [is_Exception ?e] =>
      destruct (is_Exception e) eqn:?; cbn
  end.

Ltac run_handler :=
  unfold predict_risk, try_except, predict_body, bind, prepend, call, st,
    st_pyplot, index, ret, raise; cbn;
  repeat next_call.

Section RunFacts.
Context {LibState Model Explainer ShapRow Expected Fig : Type}.
Variable env : Env LibState Model Explainer ShapRow Expected Fig.

Lemma form_run (its : list (nat * (string * Config.t))) (inputs : dict Z)
      (s : LibState) :
  Forall (fun it => accepted (widget_args (snd it)) = true) its ->
  form env its inputs s =
  {| result :=
       Ret (fold_left
              (fun acc it =>
                 setitem acc (fst (snd it))
                         (number_input env (widget_args (snd it))))
              its inputs);
     ext := s;
     trace := map (fun it => St_number_input (fst it mod 2)%nat
                                             (widget_args (snd it))) its |}.
Proof.
  intros Hall; revert inputs.
  induction Hall as [| [i [feature config]] its Hacc _ IH];
    intros inputs; cbn; [reflexivity |].
  unfold bind, st_number_input, prepend; cbn. cbn in Hacc.
  rewrite Hacc. now rewrite IH.
Qed.

Lemma accepted_enumerate (registry : dict Config.t) :
  Forall (fun item => accepted (widget_args item) = true) (items registry) ->
  Forall (fun it : nat * (string * Config.t) =>
            accepted (widget_args (snd it)) = true)
         (enumerate (items registry)).
Proof.
  intros H. rewrite <- (map_snd_enumerate (items registry)) in H.
  now apply Forall_map in H.
Qed.

(** The loop over a registry with distinct names returns one entry per
    field, in the registry's order. *)
Lemma form_enumerate (registry : dict Config.t) (s : LibState) :
  NoDup (keys registry) ->
  Forall (fun item => accepted (widget_args item) = true) (items registry) ->
  form env (enumerate (items registry)) [] s =
  {| result :=
       Ret (map (fun item => (fst item, number_input env (widget_args item)))
                registry);
     ext := s;
     trace := map (fun it => St_number_input (fst it mod 2)%nat
                                             (widget_args (snd it)))
                  (enumerate (items registry)) |}.
Proof.
  intros Hnd Hacc. rewrite form_run by now apply accepted_enumerate.
  f_equal. f_equal.
  rewrite (fold_setitem_fresh
             (fun it : nat * (string * Config.t) => fst (snd it))
             (fun it => number_input env (widget_args (snd it)))).
  - cbn. unfold items.
    pose proof (map_map snd
                  (fun item => (fst item, number_input env (widget_args item)))
                  (enumerate registry)) as E.
    rewrite map_snd_enumerate in E. now rewrite E.
  - cbn. rewrite <- (map_map snd fst), map_snd_enumerate. exact Hnd.
Qed.

Lemma keys_form_inputs : keys (form_inputs env) = keys VARIABLE_CONFIG.
Proof. unfold form_inputs, keys, items. now rewrite map_map. Qed.

Lemma handler_counts (model : Model) (inputs : dict Z) (s : LibState) :
  let tr := trace (predict_risk env model inputs s) in
  (count is_predict_proba tr = 1 /\ count is_new_explainer tr <= 1 /\
   count is_shap_values tr <= 1 /\ count is_summary_plot tr <= 1 /\
   count is_force_plot tr <= 1 /\ count is_error tr <= 1 /\
   count is_load tr = 0)%nat.
Proof.
  run_handler; unfold count; cbn; repeat split; lia.
Qed.

(** The handler checks nothing before it calls the classifier: whatever
    the record, its first action is [predict_proba] on the frame of the
    record. *)
Lemma handler_starts_with_classifier (model : Model) (inputs : dict Z)
      (s : LibState) :
  hd_error (trace (predict_risk env model inputs s))
  = Some (Predict_proba model (input_df inputs)).
Proof. run_handler; reflexivity. Qed.

Lemma handler_only_model (model : Model) (inputs : dict Z) (s : LibState) :
  only_model model (trace (predict_risk env model inputs s)).
Proof.
  unfold only_model. run_handler;
    repeat (constructor; [cbn; intros m Hm; congruence |]); constructor.
Qed.

Lemma explainer_iff_probability (model : Model) (inputs : dict Z)
      (s : LibState) :
  let tr := trace (predict_risk env model inputs s) in
  count is_new_explainer tr = count is_write tr.
Proof. run_handler; reflexivity. Qed.

(** C1: once the classifier has answered and the probability of the
    positive class is [proba], the handler shows the heading of
    [risk_level proba] right after the classifier call, and that level is
    "High Risk" exactly when [proba > 0.5]; it is "Low Risk" otherwise,
    in particular at exactly 0.5. *)
Theorem predict_risk_threshold (model : Model) (inputs : dict Z)
        (s s1 : LibState) (probs : list (list float)) (row : list float)
        (proba : float) :
  predict_proba env model (input_df inputs) s = (Ret probs, s1) ->
  nth_error probs 0 = Some row ->
  nth_error row 1 = Some proba ->
  (exists rest,
      trace (predict_risk env model inputs s)
      = (Predict_proba model (input_df inputs) :: results env proba ++ rest)%list)
  /\ (risk_level proba = "High Risk" <-> PrimFloat.ltb 0.5%float proba = true)
  /\ (risk_level proba = "Low Risk" <-> PrimFloat.ltb 0.5%float proba = false)
  /\ risk_level 0.5%float = "Low Risk".
Proof.
  intros Hp Hrow Hproba.
  split; [| split; [apply risk_level_High | split;
                    [apply risk_level_Low | reflexivity]]].
  destruct probs as [| row' probs]; [discriminate |].
  cbn in Hrow; injection Hrow as ->.
  destruct row as [| p0 [| p1 row]]; try discriminate.
  cbn in Hproba; injection Hproba as ->.
  unfold predict_risk, try_except, predict_body, bind, prepend, call, st,
    index, ret, raise; cbn.
  rewrite Hp; cbn.
  repeat next_call; eexists; reflexivity.
Qed.

(** C5: the record the form builds holds the fields in the registry's
    order, the frame made of it has the registry's names as columns and
    the widgets' values as its row, in that order, and this frame is what
    the handler passes to the classifier. *)
Theorem feature_vector_order (model : Model) (s s' : LibState) :
  result (form env (enumerate (items VARIABLE_CONFIG)) [] s)
  = Ret (form_inputs env)
  /\ input_df (form_inputs env)
     = {| columns := keys VARIABLE_CONFIG;
          rows := [map (fun item => Some (number_input env (widget_args item)))
                       (items VARIABLE_CONFIG)] |}
  /\ hd_error (trace (predict_risk env model (form_inputs env) s'))
     = Some (Predict_proba model (input_df (form_inputs env))).
Proof.
  split; [| split].
  - now rewrite (form_enumerate VARIABLE_CONFIG s VARIABLE_CONFIG_NoDup
             VARIABLE_CONFIG_accepted).
  - unfold input_df.
    rewrite pd_DataFrame_single
      by (rewrite keys_form_inputs; exact VARIABLE_CONFIG_NoDup).
    rewrite keys_form_inputs.
    unfold values, form_inputs, items. now rewrite !map_map.
  - apply handler_starts_with_classifier.
Qed.

(** C8: whatever the libraries do, an exception of class [Exception]
    raised in the handler's body does not leave the handler: the handler
    ends normally and the last thing on the page is the error text made of
    the exception's message.  Only an exception outside [Exception] gets
    through.  No library call is made a second time. *)
Theorem predict_risk_catches (model : Model) (inputs : dict Z) (s : LibState) :
  let body := predict_body env model inputs s in
  let run := predict_risk env model inputs s in
  (match result body with
   | Ret _ => run = body
   | Raise e =>
       if is_Exception e
       then (result run = Ret tt /\ ext run = ext body /\
             trace run = (trace body ++ [St_error ("Error: " ++ str e)])%list)
       else (run = body)
   end)
  /\ (forall e, result run = Raise e -> is_Exception e = false)
  /\ (count is_predict_proba (trace run) = 1 /\
      count is_new_explainer (trace run) <= 1 /\
      count is_shap_values (trace run) <= 1 /\
      count is_summary_plot (trace run) <= 1 /\
      count is_force_plot (trace run) <= 1 /\
      count is_error (trace run) <= 1)%nat.
Proof.
  cbv zeta. split; [| split].
  - unfold predict_risk, try_except, st.
    destruct (predict_body env model inputs s) as [[[] | e] s1 t1]; cbn;
      [reflexivity |].
    destruct (is_Exception e); cbn; auto.
  - intros e. unfold predict_risk, try_except, st.
    destruct (predict_body env model inputs s) as [[[] | e'] s1 t1]; cbn;
      [discriminate |].
    destruct (is_Exception e') eqn:E; cbn; [discriminate |].
    intros H; injection H as <-; exact E.
  - pose proof (handler_counts model inputs s) as H; cbv zeta in H.
    tauto.
Qed.
End RunFacts.

(* ===================================================================== *)
(** ** Runs that do not depend on the libraries' state *)
(* ===================================================================== *)

Section Determinism.
Context {LibState Model Explainer ShapRow Expected Fig : Type}.
Variable env : Env LibState Model Explainer ShapRow Expected Fig.

#[local] Abbreviation Comp := (M LibState Model Explainer ShapRow Expected Fig).

Lemma det_ret {A : Type} (a : A) : det (ret a : Comp A).
Proof. intros s s'; reflexivity. Qed.

Lemma det_raise {A : Type} (e : exn) : det (raise e : Comp A).
Proof. intros s s'; reflexivity. Qed.

Lemma det_st (ev : Event Model Explainer ShapRow Expected Fig) :
  det (st ev : Comp unit).
Proof. intros s s'; reflexivity. Qed.

Lemma det_call {A : Type} (ev : Event Model Explainer ShapRow Expected Fig)
      (f : LibState -> outcome A * LibState) :
  stateless f -> det (call ev f : Comp A).
Proof.
  intros Hf s s'. unfold call, observed. specialize (Hf s s').
  destruct (f s), (f s'); cbn in *. now subst.
Qed.

Lemma det_st_pyplot (fig : Fig) : det (st_pyplot env fig).
Proof. intros s s'; reflexivity. Qed.

Lemma det_index {A : Type} (l : list A) (i : nat) : det (index env l i).
Proof.
  unfold index. destruct (nth_error l i); [apply det_ret | apply det_raise].
Qed.

Lemma det_bind {A B : Type} (m : Comp A) (k : A -> Comp B) :
  det m -> (forall a, det (k a)) -> det (bind m k).
Proof.
  intros Hm Hk s s'. unfold bind, observed, prepend.
  specialize (Hm s s'). unfold observed in Hm.
  destruct (m s) as [r1 e1 t1], (m s') as [r2 e2 t2]; cbn in Hm.
  injection Hm as -> ->.
  destruct r2 as [a | e]; [| reflexivity].
  specialize (Hk a e1 e2). unfold observed in Hk.
  destruct (k a e1), (k a e2); cbn in *.
  injection Hk as -> ->. reflexivity.
Qed.

Lemma det_try_except (body : Comp unit) (handler : exn -> Comp unit) :
  det body -> (forall e, det (handler e)) -> det (try_except body handler).
Proof.
  intros Hb Hh s s'. unfold try_except, observed, prepend.
  specialize (Hb s s'). unfold observed in Hb.
  destruct (body s) as [r1 e1 t1], (body s') as [r2 e2 t2]; cbn in Hb.
  injection Hb as -> ->.
  destruct r2 as [u | e]; [reflexivity |].
  destruct (is_Exception e); [| reflexivity].
  specialize (Hh e e1 e2). unfold observed in Hh.
  destruct (handler e e1), (handler e e2); cbn in *.
  injection Hh as -> ->. reflexivity.
Qed.

Lemma det_predict_risk (model : Model) (inputs : dict Z) :
  fixed_artifacts env -> det (predict_risk env model inputs).
Proof.
  intros (Hp & He & Hs & Hg & Hf).
  unfold predict_risk, predict_body.
  apply det_try_except; [| intros e; apply det_st].
  repeat first
    [ apply det_st
    | apply det_st_pyplot
    | apply det_index
    | apply det_call; auto
    | apply det_bind; [| intros ?] ].
Qed.

(** C6: with a fixed classifier and explainer (library calls whose
    answers depend on their arguments only), a second call of the handler
    on the same record, made after the first, ends the same way and puts
    the same things on the page: the same risk heading and probability,
    the same two plots, made from the same attributions and base value. *)
Theorem predict_risk_idempotent (model : Model) (inputs : dict Z)
        (s : LibState) :
  fixed_artifacts env ->
  let first := predict_risk env model inputs s in
  let second := predict_risk env model inputs (ext first) in
  result second = result first /\ trace second = trace first.
Proof.
  intros H; cbv zeta.
  pose proof (det_predict_risk model inputs H
                (ext (predict_risk env model inputs s)) s) as E.
  unfold observed in E. injection E as E1 E2. now split.
Qed.
End Determinism.

(* ===================================================================== *)
(** ** The record built by the form *)
(* ===================================================================== *)



Section FormFacts.
Context {LibState Model Explainer ShapRow Expected Fig : Type}.
Variable env : Env LibState Model Explainer ShapRow Expected Fig.

Lemma form_returns (s : LibState) :
  result (form env (enumerate (items VARIABLE_CONFIG)) [] s)
  = Ret (form_inputs env).
Proof. now rewrite (form_enumerate env VARIABLE_CONFIG s VARIABLE_CONFIG_NoDup
         VARIABLE_CONFIG_accepted). Qed.


Lemma untouched_respects_limits : untouched env -> respects_limits env.
Proof. intros H a Ha. now rewrite H. Qed.

Lemma entries_within (registry : dict Config.t) :
  respects_limits env ->
  Forall min_le_max registry ->
  Forall2 entry_within registry
          (map (fun item => (fst item, number_input env (widget_args item)))
               registry).
Proof.
  intros Hw. induction 1 as [| [name config] l Hle _ IH]; cbn; constructor.
  - split; [reflexivity |]. apply (Hw (widget_args (name, config))).
    unfold min_le_max in Hle; cbn in *; lia.
  - exact IH.
Qed.

(** C10: every widget starts at its field's minimum; so the record of a
    form that nobody edited holds each field's minimum, which lies within
    the field's bounds, and the handler takes it straight to the
    classifier. *)
Theorem default_record_accepted (model : Model) (s s' : LibState) :
  untouched env ->
  Forall (fun item => value (widget_args item) = Config.min (snd item))
         (items VARIABLE_CONFIG)
  /\ result (form env (enumerate (items VARIABLE_CONFIG)) [] s)
     = Ret (form_inputs env)
  /\ form_inputs env
     = map (fun item => (fst item, Config.min (snd item)))
           (items VARIABLE_CONFIG)
  /\ Forall2 entry_within (items VARIABLE_CONFIG) (items (form_inputs env))
  /\ hd_error (trace (predict_risk env model (form_inputs env) s'))
     = Some (Predict_proba model (input_df (form_inputs env))).
Proof.
  intros Hu. refine (conj _ (conj _ (conj _ (conj _ _)))).
  - apply Forall_forall. intros [name config] _. reflexivity.
  - apply form_returns.
  - unfold form_inputs. apply map_ext. intros [name config].
    now rewrite Hu.
  - apply entries_within;
      [now apply untouched_respects_limits
      | exact VARIABLE_CONFIG_min_le_max].
  - apply handler_starts_with_classifier.
Qed.
End FormFacts.

(* ===================================================================== *)
(** ** One run of the script *)
(* ===================================================================== *)

Section AppFacts.
Context {LibState Model Explainer ShapRow Expected Fig : Type}.
Variable env : Env LibState Model Explainer ShapRow Expected Fig.

#[local] Abbreviation Ev := (Event Model Explainer ShapRow Expected Fig).

Lemma count_app (p : Ev -> bool) (l l' : list Ev) :
  count p (l ++ l')%list = (count p l + count p l')%nat.
Proof. unfold count. now rewrite filter_app, length_app. Qed.

Lemma count_cons (p : Ev -> bool) (ev : Ev) (l : list Ev) :
  count p (ev :: l) = ((if p ev then 1 else 0) + count p l)%nat.
Proof. unfold count; cbn. now destruct (p ev). Qed.

Lemma count_widgets (p : Ev -> bool) (its : list (nat * (string * Config.t))) :
  (forall col args, p (St_number_input col args) = false) ->
  count p (map (fun it => St_number_input (fst it mod 2)%nat
                                          (widget_args (snd it))) its) = 0%nat.
Proof.
  intros Hp. induction its as [| it its IH]; [reflexivity |].
  cbn [map]. now rewrite count_cons, Hp, IH.
Qed.

Lemma only_model_widgets (model : Model)
      (its : list (nat * (string * Config.t))) :
  only_model model
    (map (fun it => St_number_input (fst it mod 2)%nat
                                    (widget_args (snd it))) its : list Ev).
Proof.
  unfold only_model. apply Forall_forall. intros ev Hin m Hm.
  apply in_map_iff in Hin as (it & <- & _). discriminate Hm.
Qed.

Lemma bind_st {B : Type} (ev : Ev)
      (k : unit -> M LibState Model Explainer ShapRow Expected Fig B)
      (s : LibState) :
  bind (st ev) k s = prepend [ev] (k tt s).
Proof. reflexivity. Qed.

Lemma bind_run {A B : Type}
      (m : M LibState Model Explainer ShapRow Expected Fig A)
      (k : A -> M LibState Model Explainer ShapRow Expected Fig B)
      (s : LibState) (a : A) (s1 : LibState) (t1 : list Ev) :
  m s = {| result := Ret a; ext := s1; trace := t1 |} ->
  bind m k s = prepend t1 (k a s1).
Proof. intros H. unfold bind. now rewrite H. Qed.

Lemma trace_prepend {A : Type} (done : list Ev)
      (r : Run LibState Model Explainer ShapRow Expected Fig A) :
  trace (prepend done r) = (done ++ trace r)%list.
Proof. now destruct r. Qed.

(** The trace of a run whose model was loaded: the page set-up, the
    widgets, the button, then what the handler did if the button was
    clicked, then the sidebar unless the handler let an exception
    through. *)
Lemma app_trace (s s1 : LibState) (model : Model) :
  joblib_load env (model_path env) s = (Ret model, s1) ->
  exists handled tail,
    trace (app env s)
    = ([ Joblib_load (model_path env);
         St_set_page_config "Surgical Risk System" "wide";
         St_title "Unplanned Reoperation Risk Prediction System";
         St_markdown "---" false;
         St_columns 2 ]
         ++ map (fun it => St_number_input (fst it mod 2)%nat
                                           (widget_args (snd it)))
                (enumerate (items VARIABLE_CONFIG))
         ++ [St_button "Predict Risk" "primary"]
         ++ handled ++ tail)%list
    /\ (handled = [] \/
        handled = trace (predict_risk env model (form_inputs env) s1))
    /\ (tail = [] \/ tail = [St_sidebar_markdown USER_GUIDE]).
Proof.
  intros Hload. unfold app.
  rewrite (bind_run _ _ s model s1 [Joblib_load (model_path env)])
    by (unfold call; now rewrite Hload).
  repeat (rewrite bind_st; cbv beta).
  rewrite (bind_run _ _ s1 (form_inputs env) s1 _
             (form_enumerate env VARIABLE_CONFIG s1 VARIABLE_CONFIG_NoDup
                VARIABLE_CONFIG_accepted)).
  rewrite (bind_run _ _ s1 (button env "Predict Risk") s1
             [St_button "Predict Risk" "primary"]) by reflexivity.
  rewrite !trace_prepend.
  destruct (button env "Predict Risk").
  - unfold bind.
    destruct (predict_risk env model (form_inputs env) s1)
      as [[[] | e] s2 t2] eqn:Ep; cbn [trace prepend st].
    + exists t2, [St_sidebar_markdown USER_GUIDE].
      repeat split; auto.
    + exists t2, []. rewrite app_nil_r. repeat split; auto.
  - exists [], [St_sidebar_markdown USER_GUIDE]. repeat split; auto.
Qed.

Lemma app_trace_failed (s s1 : LibState) (e : exn) :
  joblib_load env (model_path env) s = (Raise e, s1) ->
  app env s = {| result := Raise e; ext := s1;
                 trace := [Joblib_load (model_path env)] |}.
Proof.
  intros Hload. unfold app. unfold bind at 1. unfold call.
  now rewrite Hload.
Qed.

(** C9, as the script has it: a run of the script loads the classifier
    exactly once, as its very first action, and the handler never loads
    one; every classifier and explainer call of the run works on that
    loaded model.  The explainer is not built at the start: the handler
    builds it, from that model, in each invocation that got as far as
    showing the probability, once, and in no other. *)
Theorem classifier_loaded_once (s : LibState) :
  hd_error (trace (app env s)) = Some (Joblib_load (model_path env))
  /\ count is_load (trace (app env s)) = 1%nat
  /\ (count is_new_explainer (trace (app env s)) <= 1)%nat
  /\ match joblib_load env (model_path env) s with
     | (Ret model, _) => only_model model (trace (app env s))
     | (Raise _, _) => trace (app env s) = [Joblib_load (model_path env)]
     end
  /\ (forall model inputs s',
         let tr := trace (predict_risk env model inputs s') in
         count is_load tr = 0%nat /\
         count is_new_explainer tr = count is_write tr /\
         (count is_new_explainer tr <= 1)%nat /\
         only_model model tr).
Proof.
  assert (Hhandler : forall model inputs s',
             let tr := trace (predict_risk env model inputs s') in
             count is_load tr = 0%nat /\
             count is_new_explainer tr = count is_write tr /\
             (count is_new_explainer tr <= 1)%nat /\
             only_model model tr).
  { intros model inputs s'; cbv zeta.
    pose proof (handler_counts env model inputs s') as H; cbv zeta in H.
    refine (conj _ (conj _ (conj _ _))); try tauto.
    - apply explainer_iff_probability.
    - apply handler_only_model. }
  destruct (joblib_load env (model_path env) s) as [[model | e] s1] eqn:Hload.
  - destruct (app_trace s s1 model Hload) as (handled & tail & -> & Hh & Ht).
    destruct (Hhandler model (form_inputs env) s1) as (H0 & _ & H1 & Hm).
    cbv zeta in *.
    assert (Hc : count is_load handled = 0%nat /\
                 (count is_new_explainer handled <= 1)%nat /\
                 only_model model handled).
    { destruct Hh as [-> | ->]; [| tauto].
      repeat split; [cbn; lia | constructor]. }
    destruct Hc as (Hc0 & Hc1 & Hcm).
    assert (Htail : count is_load tail = 0%nat /\
                    count is_new_explainer tail = 0%nat /\
                    only_model model tail).
    { destruct Ht as [-> | ->]; repeat split;
        repeat (constructor; [cbn; intros ? ?; discriminate |]);
        constructor. }
    destruct Htail as (Ht0 & Ht1 & Htm).
    refine (conj _ (conj _ (conj _ (conj _ Hhandler)))).
    + reflexivity.
    + cbn [Datatypes.app].
      repeat (rewrite count_cons || rewrite count_app).
      rewrite count_widgets by reflexivity. cbn [is_load]. lia.
    + cbn [Datatypes.app].
      repeat (rewrite count_cons || rewrite count_app).
      rewrite count_widgets by reflexivity. cbn [is_new_explainer]. lia.
    + unfold only_model in *. cbn [Datatypes.app].
      do 5 (apply Forall_cons; [cbn; intros ? ?; discriminate |]).
      apply Forall_app; split; [apply only_model_widgets |].
      apply Forall_cons; [cbn; intros ? ?; discriminate |].
      apply Forall_app; split; assumption.
  - rewrite (app_trace_failed s s1 e Hload); cbn.
    refine (conj _ (conj _ (conj _ (conj _ Hhandler)))); auto.
Qed.
End AppFacts.

(* ===================================================================== *)
(** ** The script on concrete inputs *)
(* ===================================================================== *)


Lemma stub_untouched (clicked : bool) : untouched (stub_env [] clicked).
Proof. intros a. reflexivity. Qed.

Lemma stub_fixed_artifacts (entered : dict Z) (clicked : bool) :
  fixed_artifacts (stub_env entered clicked).
Proof.
  repeat split; intros; intros s s'; cbn; try reflexivity.
  now destruct (Nat.eqb _ _).
Qed.

Lemma predict_risk_threshold_witness :
  let env := stub_env [] true in
  predict_proba env tt (input_df example_record) 0%nat
  = (Ret [[0.25; 0.75]%float], 1%nat)
  /\ (exists rest,
         trace (predict_risk env tt example_record 0%nat)
         = (Predict_proba tt (input_df example_record)
              :: results env 0.75%float ++ rest)%list)
  /\ (risk_level 0.75%float = "High Risk"
      <-> PrimFloat.ltb 0.5%float 0.75%float = true)
  /\ (risk_level 0.75%float = "Low Risk"
      <-> PrimFloat.ltb 0.5%float 0.75%float = false)
  /\ risk_level 0.5%float = "Low Risk".
Proof.
  split; [reflexivity |].
  exact (predict_risk_threshold (stub_env [] true) tt example_record
           0%nat 1%nat [[0.25; 0.75]%float] [0.25; 0.75]%float 0.75%float
           eq_refl eq_refl eq_refl).
Defined.

Lemma predict_risk_idempotent_witness :
  let env := stub_env [] true in
  fixed_artifacts env
  /\ (let first := predict_risk env tt example_record 0%nat in
      let second := predict_risk env tt example_record (ext first) in
      result second = result first /\ trace second = trace first).
Proof.
  split; [apply stub_fixed_artifacts |].
  exact (predict_risk_idempotent (stub_env [] true) tt example_record 0%nat
           (stub_fixed_artifacts [] true)).
Defined.

Lemma default_record_accepted_witness :
  let env := stub_env [] true in
  untouched env
  /\ (Forall (fun item => value (widget_args item) = Config.min (snd item))
             (items VARIABLE_CONFIG)
      /\ result (form env (enumerate (items VARIABLE_CONFIG)) [] 0%nat)
         = Ret (form_inputs env)
      /\ form_inputs env
         = map (fun item => (fst item, Config.min (snd item)))
               (items VARIABLE_CONFIG)
      /\ Forall2 entry_within (items VARIABLE_CONFIG) (items (form_inputs env))
      /\ hd_error (trace (predict_risk env tt (form_inputs env) 1%nat))
         = Some (Predict_proba tt (input_df (form_inputs env)))).
Proof.
  split; [apply stub_untouched |].
  exact (default_record_accepted (stub_env [] true) tt 0%nat 1%nat
           (stub_untouched true)).
Defined.

(** Two clicks on the same record: each invocation of the handler builds
    an explainer of its own, after the probability is shown; the run of the
    script builds it after the button, not at the start. *)
Lemma explainer_built_in_handler :
  let env := stub_env [] true in
  let first := predict_risk env tt example_record 1%nat in
  let second := predict_risk env tt example_record (ext first) in
  count is_new_explainer (trace first) = 1%nat
  /\ count is_new_explainer (trace second) = 1%nat
  /\ nth_error (trace first) 7 = Some (New_TreeExplainer tt)
  /\ nth_error (trace (app env 0%nat)) 0 = Some (Joblib_load "/app/best_model.pkl")
  /\ nth_error (trace (app env 0%nat)) 16 = Some (St_button "Predict Risk" "primary")
  /\ nth_error (trace (app env 0%nat)) 24 = Some (New_TreeExplainer tt).
Proof. vm_compute. repeat split; reflexivity. Qed.

(* ===================================================================== *)
(** ** More on the form *)
(* ===================================================================== *)

Lemma pick_map_some {A B C : Type} (f : B -> option C) (g : A -> B)
      (h : A -> C) (l : list A) :
  (forall a, f (g a) = Some (h a)) -> pick f (map g l) = map h l.
Proof.
  intros H. induction l as [| a l IH]; cbn; [reflexivity |].
  now rewrite H, IH.
Qed.

Lemma pick_app {A B : Type} (f : A -> option B) (l l' : list A) :
  pick f (l ++ l')%list = (pick f l ++ pick f l')%list.
Proof.
  induction l as [| a l IH]; cbn; [reflexivity |].
  destruct (f a); cbn; now rewrite IH.
Qed.

Lemma pick_none {A B : Type} (f : A -> option B) (l : list A) :
  Forall (fun a => f a = None) l -> pick f l = [].
Proof. induction 1 as [| a l Ha _ IH]; cbn; [reflexivity | now rewrite Ha]. Qed.

Lemma map_fst_enumerate {A : Type} (l : list A) :
  map fst (enumerate l) = seq 0 (List.length l).
Proof.
  unfold enumerate. generalize 0%nat.
  induction l as [| a l IH]; cbn; intros n; [reflexivity |].
  now rewrite IH.
Qed.

Lemma mod_2_lt (k : nat) : (k mod 2 < 2)%nat.
Proof. apply Nat.mod_upper_bound. discriminate. Qed.

Lemma enumerate_from_app {A : Type} (l1 l2 : list A) (x : A) (n : nat) :
  combine (seq n (List.length (l1 ++ x :: l2))) (l1 ++ x :: l2)
  = (combine (seq n (List.length l1)) l1
       ++ (n + List.length l1, x)%nat
       :: combine (seq (S (n + List.length l1)) (List.length l2)) l2)%list.
Proof.
  revert n; induction l1 as [| a l1 IH]; intros n; cbn.
  - now rewrite Nat.add_0_r.
  - rewrite IH. now rewrite Nat.add_succ_r.
Qed.

Lemma firstn_Forall {A : Type} (P : A -> Prop) (k : nat) (l : list A) :
  Forall P l -> Forall P (firstn k l).
Proof.
  intros H. rewrite <- (firstn_skipn k l) in H.
  apply Forall_app in H. tauto.
Qed.

Lemma firstn_NoDup {A : Type} (k : nat) (l : list A) :
  NoDup l -> NoDup (firstn k l).
Proof.
  intros H. rewrite <- (firstn_skipn k l) in H.
  now apply NoDup_app_remove_r in H.
Qed.

Section FormLayout.
Context {LibState Model Explainer ShapRow Expected Fig : Type}.
Variable env : Env LibState Model Explainer ShapRow Expected Fig.

#[local] Abbreviation Ev := (Event Model Explainer ShapRow Expected Fig).

(** Whatever the registry, the loop calls [st.number_input] for its first
    fields, up to and including the first one that is refused. *)
Lemma form_trace_prefix (its : list (nat * (string * Config.t)))
      (inputs : dict Z) (s : LibState) :
  exists k,
    trace (form env its inputs s)
    = map (fun it => St_number_input (fst it mod 2)%nat (widget_args (snd it)))
          (firstn k its).
Proof.
  revert inputs; induction its as [| [i [feature config]] its IH];
    intros inputs.
  - exists 0%nat. reflexivity.
  - cbn [form]. unfold bind, st_number_input.
    destruct (accepted (widget_args (feature, config))).
    + destruct (IH (setitem inputs feature
                            (number_input env (widget_args (feature, config)))))
        as [k Hk].
      exists (S k). unfold prepend.
      destruct (form env its _ s) as [r e t]. cbn in *. now rewrite Hk.
    + exists 1%nat. reflexivity.
Qed.

Lemma form_widget_prefix (registry : dict Config.t) (inputs : dict Z)
      (s : LibState) :
  exists k,
    pick widget_of (trace (form env (enumerate (items registry)) inputs s))
    = map widget_args (firstn k (items registry)).
Proof.
  destruct (form_trace_prefix (enumerate (items registry)) inputs s) as [k ->].
  exists k.
  rewrite (pick_map_some _ _ (fun it => widget_args (snd it))) by reflexivity.
  rewrite <- (map_map snd widget_args), <- firstn_map.
  now rewrite map_snd_enumerate.
Qed.

Lemma form_widget_list (registry : dict Config.t) (inputs : dict Z)
      (s : LibState) :
  Forall (fun item => accepted (widget_args item) = true) (items registry) ->
  pick widget_of (trace (form env (enumerate (items registry)) inputs s))
  = map widget_args (items registry).
Proof.
  intros Hacc. rewrite form_run by now apply accepted_enumerate.
  cbn [trace].
  rewrite (pick_map_some _ _ (fun it => widget_args (snd it))) by reflexivity.
  rewrite <- (map_map snd widget_args). now rewrite map_snd_enumerate.
Qed.

(** The form loop, on any registry whose widgets are all accepted and from
    any record: it ends normally and leaves the libraries alone; it shows
    one widget per field, in the registry's order, the field at position
    [k] in column [k mod 2], so always in one of the two columns made by
    [st.columns(2)]. *)
Theorem form_layout (registry : dict Config.t) (inputs : dict Z) (s : LibState) :
  Forall (fun item => accepted (widget_args item) = true) (items registry) ->
  let r := form env (enumerate (items registry)) inputs s in
  (exists d, result r = Ret d)
  /\ ext r = s
  /\ List.length (trace r) = List.length registry
  /\ pick widget_of (trace r) = map widget_args (items registry)
  /\ pick column_of (trace r)
     = map (fun k => (k mod 2)%nat) (seq 0 (List.length registry))
  /\ Forall (fun col => (col < 2)%nat) (pick column_of (trace r)).
Proof.
  intros Hacc; cbv zeta.
  pose proof (form_widget_list registry inputs s Hacc) as Hw.
  rewrite form_run in * by now apply accepted_enumerate.
  cbn [result ext trace] in *.
  assert (Hcols :
    pick column_of
      (map (fun it : nat * (string * Config.t) =>
              St_number_input (Model := Model) (Explainer := Explainer)
                (ShapRow := ShapRow) (Expected := Expected) (Fig := Fig)
                (fst it mod 2)%nat (widget_args (snd it)))
           (enumerate (items registry)))
    = map (fun k => (k mod 2)%nat) (seq 0 (List.length registry))).
  { rewrite (pick_map_some _ _ (fun it => (fst it mod 2)%nat)) by reflexivity.
    rewrite <- (map_map fst (fun k => (k mod 2)%nat)).
    now rewrite map_fst_enumerate. }
  refine (conj _ (conj _ (conj _ (conj _ (conj _ _))))).
  - eexists; reflexivity.
  - reflexivity.
  - rewrite length_map. unfold enumerate, items.
    rewrite length_combine, length_seq. apply Nat.min_id.
  - exact Hw.
  - exact Hcols.
  - rewrite Hcols. apply Forall_forall. intros col Hin.
    apply in_map_iff in Hin as (k & <- & _). apply mod_2_lt.
Qed.

(** The form loop on a registry whose first fields are accepted and whose
    next field is refused by the widget (its min above its max, say): the
    loop calls [st.number_input] for the fields up to and including that
    one and ends with the widget's exception, of class [Exception]; the
    fields after it get no widget.  (The loop is under no [try].) *)
Theorem form_refused (good rest : dict Config.t) (name : string)
        (config : Config.t) (inputs : dict Z) (s : LibState) :
  Forall (fun item => accepted (widget_args item) = true) good ->
  accepted (widget_args (name, config)) = false ->
  let r := form env (enumerate (items (good ++ (name, config) :: rest)%list))
                inputs s in
  result r
  = Raise {| is_Exception := true;
             str := number_input_error env (widget_args (name, config)) |}
  /\ ext r = s
  /\ pick widget_of (trace r) = map widget_args (good ++ [(name, config)])%list.
Proof.
  intros Hgood Hbad; cbv zeta. unfold enumerate, items.
  rewrite enumerate_from_app. generalize 0%nat. revert inputs.
  induction Hgood as [| [name' config'] good Hacc _ IH]; intros inputs n.
  - cbn [List.length seq combine Datatypes.app form].
    unfold bind, st_number_input. rewrite Hbad. cbn. auto.
  - cbn [List.length seq combine Datatypes.app form].
    unfold bind, st_number_input.
    change (accepted (widget_args (name', config')) = true) in Hacc.
    rewrite Hacc.
    specialize (IH (setitem inputs name'
                      (number_input env (widget_args (name', config'))))
                   (S n)).
    rewrite Nat.add_succ_r. cbn [Nat.add] in IH.
    destruct (form env _ _ s) as [r e t].
    cbn [result ext trace prepend Datatypes.app pick widget_of map] in *.
    destruct IH as (-> & -> & ->). auto.
Qed.

(** On a registry with distinct names and min <= max for each field, the
    widgets the form shows have pairwise distinct keys, and each has a
    legal default: within its limits, at the lower one, with step 1. *)
Theorem form_widgets_legal (registry : dict Config.t) (inputs : dict Z)
        (s : LibState) :
  NoDup (keys registry) ->
  Forall min_le_max (items registry) ->
  let shown := pick widget_of (trace (form env (enumerate (items registry)) inputs s)) in
  NoDup (map key shown) /\ Forall legal_default shown.
Proof.
  intros Hnd Hle; cbv zeta.
  destruct (form_widget_prefix registry inputs s) as [k ->].
  unfold keys, items in *. split.
  - rewrite map_map.
    rewrite (map_ext (fun x : string * Config.t => key (widget_args x)) fst)
      by (intros [? ?]; reflexivity).
    rewrite <- firstn_map. now apply firstn_NoDup.
  - apply (firstn_Forall _ k) in Hle.
    induction Hle as [| [name config] l Hle _ IH]; cbn; constructor; auto.
    unfold legal_default, min_le_max in *; cbn in *. lia.
Qed.
End FormLayout.

(* ===================================================================== *)
(** ** More on the handler *)
(* ===================================================================== *)

(** The heading's colour goes with the risk level, whatever the
    probability (not-a-number included): red with "High Risk", green with
    "Low Risk"; there is no other level or colour. *)
Theorem risk_color_agree (proba : float) :
  (risk_level proba = "High Risk" /\ color proba = "#FF4B4B")
  \/ (risk_level proba = "Low Risk" /\ color proba = "#00CC96").
Proof.
  unfold risk_level, color.
  destruct (PrimFloat.ltb 0.5%float proba); [left | right]; split; reflexivity.
Qed.

Ltac open_handler :=
  unfold predict_risk, try_except, predict_body, bind, prepend, call, st,
    st_pyplot, index, ret, raise; cbn.

Section HandlerPaths.
Context {LibState Model Explainer ShapRow Expected Fig : Type}.
Variable env : Env LibState Model Explainer ShapRow Expected Fig.

#[local] Abbreviation Ev := (Event Model Explainer ShapRow Expected Fig).

Lemma body_shows_no_error (model : Model) (inputs : dict Z) (s : LibState) :
  count is_error (trace (predict_body env model inputs s)) = 0%nat.
Proof.
  unfold predict_body, bind, prepend, call, st, st_pyplot, index, ret, raise;
    cbn.
  repeat next_call; reflexivity.
Qed.

Lemma handler_shows_no_widget (model : Model) (inputs : dict Z) (s : LibState) :
  pick widget_of (trace (predict_risk env model inputs s)) = [].
Proof. run_handler; reflexivity. Qed.

Lemma handler_lets_no_Exception_through (model : Model) (inputs : dict Z)
      (s : LibState) (e : exn) :
  result (predict_risk env model inputs s) = Raise e -> is_Exception e = false.
Proof.
  unfold predict_risk, try_except, st.
  destruct (predict_body env model inputs s) as [[[] | e'] s1 t1]; cbn;
    [discriminate |].
  destruct (is_Exception e') eqn:E; cbn; [discriminate |].
  intros H; injection H as <-; exact E.
Qed.

(** When the classifier raises, nothing of the results is shown and no
    explainer is built: an [Exception] leaves its message on the page and
    the handler ends normally; any other exception leaves the handler. *)
Theorem classifier_failure (model : Model) (inputs : dict Z)
        (s s1 : LibState) (e : exn) :
  predict_proba env model (input_df inputs) s = (Raise e, s1) ->
  predict_risk env model inputs s =
  if is_Exception e
  then {| result := Ret tt; ext := s1;
          trace := [ Predict_proba model (input_df inputs);
                     St_error ("Error: " ++ str e) ] |}
  else {| result := Raise e; ext := s1;
          trace := [ Predict_proba model (input_df inputs) ] |}.
Proof.
  intros Hp. open_handler. rewrite Hp; cbn.
  destruct (is_Exception e); reflexivity.
Qed.

(** When the classifier answers with a first row of fewer than two
    probabilities (a model that knows one class only), the handler shows
    the [IndexError] of [[0][1]] and nothing else. *)
Theorem too_few_probabilities (model : Model) (inputs : dict Z)
        (s s1 : LibState) (row : list float) (more : list (list float)) :
  predict_proba env model (input_df inputs) s = (Ret (row :: more), s1) ->
  (List.length row < 2)%nat ->
  predict_risk env model inputs s =
  {| result := Ret tt; ext := s1;
     trace := [ Predict_proba model (input_df inputs);
                St_error ("Error: " ++ index_error_str env 1 (List.length row)) ] |}.
Proof.
  intros Hp Hlen. open_handler. rewrite Hp; cbn.
  destruct row as [| p0 [| p1 row]]; cbn in *; try reflexivity; lia.
Qed.

(** When the explainer cannot be built, the risk level and the
    probability are already on the page and stay there; the error text
    comes after them, under the "Model Interpretation" header. *)
Theorem explainer_failure_keeps_results (model : Model) (inputs : dict Z)
        (s s1 s2 : LibState) (probs : list (list float)) (row : list float)
        (proba : float) (e : exn) :
  predict_proba env model (input_df inputs) s = (Ret probs, s1) ->
  nth_error probs 0 = Some row ->
  nth_error row 1 = Some proba ->
  TreeExplainer env model s1 = (Raise e, s2) ->
  is_Exception e = true ->
  predict_risk env model inputs s =
  {| result := Ret tt; ext := s2;
     trace := (Predict_proba model (input_df inputs)
                 :: results env proba
                 ++ [ St_markdown "---" false;
                      St_subheader "Model Interpretation";
                      New_TreeExplainer model;
                      St_error ("Error: " ++ str e) ])%list |}.
Proof.
  intros Hp Hrow Hproba He Hexc.
  destruct probs as [| row' probs]; [discriminate |].
  cbn in Hrow; injection Hrow as ->.
  destruct row as [| p0 [| p1 row]]; try discriminate.
  cbn in Hproba; injection Hproba as ->.
  open_handler. rewrite Hp; cbn. rewrite He; cbn. rewrite Hexc. reflexivity.
Qed.

(** When every library call succeeds, the attribution has a first row and
    [st.pyplot] takes both figures,
    the handler ends normally and the page shows, in this order: rule,
    header, risk heading, probability, rule, header, the summary plot in
    its expander, the force plot of the first attribution row in its
    expander; no error text. *)
Theorem handler_success (model : Model) (inputs : dict Z)
        (s s1 s2 s3 s4 s5 : LibState) (probs : list (list float))
        (row : list float) (proba : float) (explainer : Explainer)
        (sv : list ShapRow) (sv0 : ShapRow) (fig_global fig_local : Fig) :
  predict_proba env model (input_df inputs) s = (Ret probs, s1) ->
  nth_error probs 0 = Some row ->
  nth_error row 1 = Some proba ->
  TreeExplainer env model s1 = (Ret explainer, s2) ->
  shap_values env explainer (input_df inputs) s2 = (Ret sv, s3) ->
  summary_plot env sv (input_df inputs) s3 = (Ret fig_global, s4) ->
  pyplot env fig_global = Ret tt ->
  nth_error sv 0 = Some sv0 ->
  force_plot env (expected_value env explainer) sv0 (input_df inputs) s4
  = (Ret fig_local, s5) ->
  pyplot env fig_local = Ret tt ->
  predict_risk env model inputs s =
  {| result := Ret tt; ext := s5;
     trace := (Predict_proba model (input_df inputs)
                 :: results env proba
                 ++ [ St_markdown "---" false;
                      St_subheader "Model Interpretation";
                      New_TreeExplainer model;
                      Shap_values explainer (input_df inputs);
                      St_expander "Global Feature Importance";
                      Summary_plot sv (input_df inputs) "bar" false;
                      St_pyplot fig_global;
                      St_expander "Individual Feature Impact";
                      Force_plot (expected_value env explainer) sv0
                                 (input_df inputs) true;
                      St_pyplot fig_local ])%list |}.
Proof.
  intros Hp Hrow Hproba He Hsv Hsum Hplot Hsv0 Hforce Hplot'.
  destruct probs as [| row' probs]; [discriminate |].
  cbn in Hrow; injection Hrow as ->.
  destruct row as [| p0 [| p1 row]]; try discriminate.
  cbn in Hproba; injection Hproba as ->.
  destruct sv as [| sv0' sv]; [discriminate |].
  cbn in Hsv0; injection Hsv0 as ->.
  open_handler. rewrite Hp; cbn. rewrite He; cbn. rewrite Hsv; cbn.
  rewrite Hsum; cbn. rewrite Hplot; cbn. rewrite Hforce; cbn.
  rewrite Hplot'. reflexivity.
Qed.

(** When [st.pyplot] refuses the summary figure with an [Exception] (a
    Streamlit that takes no [None], which is what [shap.summary_plot]
    returns with [show=False]), the handler stops there: the results and
    the "Global Feature Importance" expander stay on the page, the error
    text comes last, and the force plot is never made. *)
Theorem pyplot_refused (model : Model) (inputs : dict Z)
        (s s1 s2 s3 s4 : LibState) (probs : list (list float))
        (row : list float) (proba : float) (explainer : Explainer)
        (sv : list ShapRow) (fig_global : Fig) (e : exn) :
  predict_proba env model (input_df inputs) s = (Ret probs, s1) ->
  nth_error probs 0 = Some row ->
  nth_error row 1 = Some proba ->
  TreeExplainer env model s1 = (Ret explainer, s2) ->
  shap_values env explainer (input_df inputs) s2 = (Ret sv, s3) ->
  summary_plot env sv (input_df inputs) s3 = (Ret fig_global, s4) ->
  pyplot env fig_global = Raise e ->
  is_Exception e = true ->
  predict_risk env model inputs s =
  {| result := Ret tt; ext := s4;
     trace := (Predict_proba model (input_df inputs)
                 :: results env proba
                 ++ [ St_markdown "---" false;
                      St_subheader "Model Interpretation";
                      New_TreeExplainer model;
                      Shap_values explainer (input_df inputs);
                      St_expander "Global Feature Importance";
                      Summary_plot sv (input_df inputs) "bar" false;
                      St_pyplot fig_global;
                      St_error ("Error: " ++ str e) ])%list |}
  /\ count is_force_plot (trace (predict_risk env model inputs s)) = 0%nat.
Proof.
  intros Hp Hrow Hproba He Hsv Hsum Hplot Hexc.
  destruct probs as [| row' probs]; [discriminate |].
  cbn in Hrow; injection Hrow as ->.
  destruct row as [| p0 [| p1 row]]; try discriminate.
  cbn in Hproba; injection Hproba as ->.
  open_handler. rewrite Hp; cbn. rewrite He; cbn. rewrite Hsv; cbn.
  rewrite Hsum; cbn. rewrite Hplot; cbn. rewrite Hexc. split; reflexivity.
Qed.

(** The body of the handler never writes an error text itself; the
    handler shows exactly one when its body raised an [Exception], and
    none otherwise. *)
Theorem error_shown_iff_body_raised (model : Model) (inputs : dict Z)
        (s : LibState) :
  let body := predict_body env model inputs s in
  let run := predict_risk env model inputs s in
  count is_error (trace body) = 0%nat
  /\ count is_error (trace run)
     = match result body with
       | Ret _ => 0%nat
       | Raise e => if is_Exception e then 1%nat else 0%nat
       end.
Proof.
  cbv zeta. pose proof (body_shows_no_error model inputs s) as Hb.
  split; [exact Hb |].
  unfold predict_risk, try_except, st.
  destruct (predict_body env model inputs s) as [[[] | e] s1 t1];
    cbn [result trace] in *; [exact Hb |].
  destruct (is_Exception e); cbn [prepend trace]; [| exact Hb].
  rewrite count_app, Hb. reflexivity.
Qed.

(** The handler calls the libraries in one fixed order and stops at the
    first failure: its calls are the first ones of classifier, explainer,
    attribution, summary plot, force plot, up to and including the first
    call that raises; after a failed index into the probabilities, or into
    the attribution, or a refused figure, no further call is made.  So no
    explainer is built unless the classifier answered with a probability,
    and no plot is made without the attribution. *)
Theorem handler_call_order (model : Model) (inputs : dict Z) (s : LibState) :
  let X := input_df inputs in
  pick call_of (trace (predict_risk env model inputs s))
  = firstn
      match predict_proba env model X s with
      | (Raise _, _) => 1
      | (Ret probs, s1) =>
          match nth_error probs 0 with
          | None => 1
          | Some row =>
              match nth_error row 1 with
              | None => 1
              | Some _ =>
                  match TreeExplainer env model s1 with
                  | (Raise _, _) => 2
                  | (Ret explainer, s2) =>
                      match shap_values env explainer X s2 with
                      | (Raise _, _) => 3
                      | (Ret sv, s3) =>
                          match summary_plot env sv X s3 with
                          | (Raise _, _) => 4
                          | (Ret fig_global, _) =>
                              match pyplot env fig_global with
                              | Raise _ => 4
                              | Ret _ =>
                                  match nth_error sv 0 with
                                  | None => 4
                                  | Some _ => 5
                                  end
                              end
                          end
                      end
                  end
              end
          end
      end%nat
      handler_calls.
Proof. cbv zeta. run_handler; reflexivity. Qed.


(** Every library call of the handler that takes a frame takes the frame
    made of the record: the attribution and both plots work on the very
    input the classifier was given. *)
Theorem handler_same_frame (model : Model) (inputs : dict Z) (s : LibState) :
  only_frame (input_df inputs) (trace (predict_risk env model inputs s)).
Proof.
  unfold only_frame. run_handler;
    repeat (constructor; [cbn; intros X' HX; congruence |]); constructor.
Qed.
End HandlerPaths.

(* ===================================================================== *)
(** ** More on a run of the script *)
(* ===================================================================== *)

Section AppPaths.
Context {LibState Model Explainer ShapRow Expected Fig : Type}.
Variable env : Env LibState Model Explainer ShapRow Expected Fig.

#[local] Abbreviation Ev := (Event Model Explainer ShapRow Expected Fig).

(** A run whose model was loaded, up to the button. *)
Lemma app_loaded (s s1 : LibState) (model : Model) :
  joblib_load env (model_path env) s = (Ret model, s1) ->
  app env s =
  prepend (Joblib_load (model_path env)
             :: page_head ++ form_widgets VARIABLE_CONFIG
             ++ [St_button "Predict Risk" "primary"])%list
          (bind (if button env "Predict Risk"
                 then predict_risk env model (form_inputs env)
                 else ret tt)
                (fun _ => st (St_sidebar_markdown USER_GUIDE)) s1).
Proof.
  intros Hload. unfold app.
  rewrite (bind_run _ _ s model s1 [Joblib_load (model_path env)])
    by (unfold call; now rewrite Hload).
  repeat (rewrite bind_st; cbv beta).
  rewrite (bind_run _ _ s1 (form_inputs env) s1 _
             (form_enumerate env VARIABLE_CONFIG s1 VARIABLE_CONFIG_NoDup
                VARIABLE_CONFIG_accepted)).
  rewrite (bind_run _ _ s1 (button env "Predict Risk") s1
             [St_button "Predict Risk" "primary"]) by reflexivity.
  unfold form_widgets, page_head.
  destruct (bind _ _ s1) as [r e t]. cbn. rewrite <- ?app_assoc. reflexivity.
Qed.

Lemma page_head_no_widget : pick widget_of (page_head (Model := Model)
  (Explainer := Explainer) (ShapRow := ShapRow) (Expected := Expected)
  (Fig := Fig)) = [].
Proof. reflexivity. Qed.

Lemma form_widgets_shown (registry : dict Config.t) :
  pick widget_of (form_widgets registry : list Ev)
  = map widget_args (items registry).
Proof.
  unfold form_widgets.
  rewrite (pick_map_some _ _ (fun it => widget_args (snd it))) by reflexivity.
  rewrite <- (map_map snd widget_args). now rewrite map_snd_enumerate.
Qed.

Lemma form_widgets_no_call (registry : dict Config.t) :
  pick call_of (form_widgets registry : list Ev) = [].
Proof.
  apply pick_none. apply Forall_forall. intros ev Hin.
  apply in_map_iff in Hin as (it & <- & _). reflexivity.
Qed.

Lemma prefix_widgets (path text type : string) (registry : dict Config.t) :
  pick widget_of
    (Joblib_load path
       :: page_head ++ form_widgets registry ++ [St_button text type] : list Ev)%list
  = map widget_args (items registry).
Proof.
  cbn [pick widget_of].
  rewrite !pick_app, page_head_no_widget, form_widgets_shown. cbn.
  now rewrite app_nil_r.
Qed.

(** When the model cannot be loaded, the run ends with the exception of
    [joblib.load], whatever its class: the load is under no [try]; nothing
    is written to the page and no widget is made. *)
Theorem app_model_unavailable (s s1 : LibState) (e : exn) :
  joblib_load env (model_path env) s = (Raise e, s1) ->
  result (app env s) = Raise e
  /\ ext (app env s) = s1
  /\ trace (app env s) = [Joblib_load (abspath env "best_model.pkl")]
  /\ filter is_page (trace (app env s)) = [].
Proof.
  intros Hload. rewrite (app_trace_failed env s s1 e Hload). cbn.
  repeat split; reflexivity.
Qed.

(** A run without a click, once the model is loaded: the page set-up, the
    eleven widgets, the button, the sidebar; it ends normally, and the load
    is its only library call: no prediction is made before the button is
    clicked. *)
Theorem app_without_click (s s1 : LibState) (model : Model) :
  joblib_load env (model_path env) s = (Ret model, s1) ->
  button env "Predict Risk" = false ->
  app env s =
  {| result := Ret tt; ext := s1;
     trace := (Joblib_load (model_path env)
                 :: page_head ++ form_widgets VARIABLE_CONFIG
                 ++ [ St_button "Predict Risk" "primary";
                      St_sidebar_markdown USER_GUIDE ])%list |}
  /\ pick call_of (trace (app env s)) = [Call_joblib_load].
Proof.
  intros Hload Hb.
  assert (E : app env s =
    {| result := Ret tt; ext := s1;
       trace := (Joblib_load (model_path env)
                   :: page_head ++ form_widgets VARIABLE_CONFIG
                   ++ [ St_button "Predict Risk" "primary";
                        St_sidebar_markdown USER_GUIDE ])%list |}).
  { rewrite (app_loaded s s1 model Hload), Hb.
    unfold bind, ret, st, prepend; cbn. rewrite <- ?app_assoc. reflexivity. }
  split; [exact E |].
  rewrite E. cbn [trace pick call_of].
  rewrite !pick_app, form_widgets_no_call. reflexivity.
Qed.

(** A run with a click, once the model is loaded: the handler is run on
    the record of the form, with the loaded model, after the button; what
    it did follows the button on the page, and the sidebar comes last,
    unless an exception left the handler.  The run ends as the handler
    ends. *)
Theorem app_clicked (s s1 : LibState) (model : Model) :
  joblib_load env (model_path env) s = (Ret model, s1) ->
  button env "Predict Risk" = true ->
  let handled := predict_risk env model (form_inputs env) s1 in
  result (app env s) = result handled
  /\ ext (app env s) = ext handled
  /\ trace (app env s)
     = (Joblib_load (model_path env)
          :: page_head ++ form_widgets VARIABLE_CONFIG
          ++ [St_button "Predict Risk" "primary"]
          ++ trace handled
          ++ match result handled with
             | Ret _ => [St_sidebar_markdown USER_GUIDE]
             | Raise _ => []
             end)%list.
Proof.
  intros Hload Hb; cbv zeta.
  rewrite (app_loaded s s1 model Hload), Hb. unfold bind, st.
  destruct (predict_risk env model (form_inputs env) s1) as [[[] | e] s2 t2];
    cbn; rewrite <- ?app_assoc, ?app_nil_r; repeat split; reflexivity.
Qed.

(** Once the model is loaded, the run shows all eleven widgets, clicked
    or not, prediction failed or not; and it either ends normally, with
    the sidebar as the last thing on the page, or ends with an exception
    that is no [Exception] and left the handler after a click. *)
Theorem page_completed_after_load (s s1 : LibState) (model : Model) :
  joblib_load env (model_path env) s = (Ret model, s1) ->
  pick widget_of (trace (app env s)) = map widget_args (items VARIABLE_CONFIG)
  /\ match result (app env s) with
     | Ret _ =>
         last (trace (app env s)) (St_columns 0)
         = St_sidebar_markdown USER_GUIDE
     | Raise e =>
         is_Exception e = false /\ button env "Predict Risk" = true
     end.
Proof.
  intros Hload. rewrite (app_loaded s s1 model Hload).
  destruct (button env "Predict Risk") eqn:Hb.
  - pose proof (handler_shows_no_widget env model (form_inputs env) s1) as Hw.
    pose proof (handler_lets_no_Exception_through env model (form_inputs env) s1)
      as Hx.
    unfold bind, st.
    destruct (predict_risk env model (form_inputs env) s1)
      as [[[] | e] s2 t2]; cbn [result trace prepend] in *.
    + split.
      * rewrite !pick_app, prefix_widgets, Hw. cbn. rewrite ?app_nil_r. reflexivity.
      * rewrite !app_assoc. apply last_last.
    + split.
      * rewrite !pick_app, prefix_widgets, Hw. cbn. rewrite ?app_nil_r. reflexivity.
      * split; [now apply Hx | reflexivity].
  - unfold bind, ret, st; cbn [result trace prepend]. split.
    + rewrite !pick_app, prefix_widgets. cbn. rewrite ?app_nil_r. reflexivity.
    + cbn [Datatypes.app]. rewrite !app_assoc, app_comm_cons. apply last_last.
Qed.
End AppPaths.

(* ===================================================================== *)
(** ** More on the frame of a record *)
(* ===================================================================== *)

Lemma mem_true_iff (k : string) (l : list string) : mem k l = true <-> In k l.
Proof.
  unfold mem. rewrite existsb_exists. split.
  - intros (x & Hin & Heq). apply String.eqb_eq in Heq. now subst.
  - intros Hin. exists k. split; [exact Hin | apply String.eqb_refl].
Qed.

Lemma first_met_spec (l acc : list string) :
  NoDup acc ->
  let cols :=
    fold_left (fun acc k => if mem k acc then acc else (acc ++ [k])%list) l acc in
  NoDup cols /\ (forall c, In c cols <-> In c acc \/ In c l).
Proof.
  revert acc; induction l as [| k l IH]; cbn; intros acc Hnd.
  - split; [exact Hnd | intros c; tauto].
  - destruct (mem k acc) eqn:E.
    + apply mem_true_iff in E.
      destruct (IH acc Hnd) as (H1 & H2). split; [exact H1 |].
      intros c. rewrite H2. intuition (subst; auto).
    + assert (Hk : ~ In k acc).
      { intros Hin. apply mem_true_iff in Hin. congruence. }
      assert (Hnd' : NoDup (acc ++ [k])%list).
      { apply NoDup_app; repeat split; auto.
        - repeat constructor. intros [].
        - intros x Hx [<- | []]. contradiction. }
      destruct (IH (acc ++ [k])%list Hnd') as (H1 & H2). split; [exact H1 |].
      intros c. rewrite H2, in_app_iff. cbn. tauto.
Qed.

Lemma get_of_key {V : Type} (d : dict V) (k : string) :
  In k (keys d) -> exists v, get d k = Some v.
Proof.
  intros Hin. destruct (get d k) as [v |] eqn:E; [now exists v |].
  apply get_None_keys in E. contradiction.
Qed.

(** The frame made of a record, whatever the record: exactly one row;
    its columns are the record's keys, each once; each cell is the
    record's value for its column, and no cell is missing. *)
Theorem input_df_shape (inputs : dict Z) :
  let X := input_df inputs in
  rows X = [map (get inputs) (columns X)]
  /\ NoDup (columns X)
  /\ (forall c, In c (columns X) <-> In c (keys inputs))
  /\ Forall (fun c => exists v, get inputs c = Some v) (columns X).
Proof.
  cbv zeta. unfold input_df, pd_DataFrame; cbn [fold_left map columns rows].
  destruct (first_met_spec (keys inputs) [] (NoDup_nil _)) as (Hnd & Hin).
  cbv zeta in Hnd, Hin.
  refine (conj eq_refl (conj Hnd (conj _ _))).
  - intros c. rewrite Hin. cbn. tauto.
  - apply Forall_forall. intros c Hc. apply get_of_key.
    apply Hin in Hc. cbn in Hc. tauto.
Qed.

(* ===================================================================== *)
(** ** The further properties on concrete inputs *)
(* ===================================================================== *)

Lemma form_widgets_legal_witness :
  let shown :=
    pick widget_of
      (trace (form (stub_env [] true) (enumerate (items VARIABLE_CONFIG)) [] 0%nat)) in
  NoDup (keys VARIABLE_CONFIG)
  /\ Forall min_le_max (items VARIABLE_CONFIG)
  /\ NoDup (map key shown) /\ Forall legal_default shown.
Proof.
  refine (conj VARIABLE_CONFIG_NoDup (conj VARIABLE_CONFIG_min_le_max _)).
  exact (form_widgets_legal (stub_env [] true) VARIABLE_CONFIG [] 0%nat
           VARIABLE_CONFIG_NoDup VARIABLE_CONFIG_min_le_max).
Defined.

Lemma classifier_failure_witness :
  let env := stub_env [] true in
  let e := ValueError "X has a different number of features than the fitted model" in
  predict_proba env tt (input_df record_no_chf) 0%nat = (Raise e, 1%nat)
  /\ predict_risk env tt record_no_chf 0%nat
     = (if is_Exception e
        then {| result := Ret tt; ext := 1%nat;
                trace := [ Predict_proba tt (input_df record_no_chf);
                           St_error ("Error: " ++ str e) ] |}
        else {| result := Raise e; ext := 1%nat;
                trace := [ Predict_proba tt (input_df record_no_chf) ] |}).
Proof.
  split; [reflexivity |].
  exact (classifier_failure (stub_env [] true) tt record_no_chf 0%nat 1%nat
           (ValueError "X has a different number of features than the fitted model")
           eq_refl).
Defined.

Lemma too_few_probabilities_witness :
  let env := scripted_env (Ret tt) (Ret [[1%float]]) (Ret tt) (Ret []) true in
  predict_proba env tt (input_df example_record) 0%nat
  = (Ret [[1%float]], 1%nat)
  /\ (List.length [1%float] < 2)%nat
  /\ predict_risk env tt example_record 0%nat
     = {| result := Ret tt; ext := 1%nat;
          trace := [ Predict_proba tt (input_df example_record);
                     St_error ("Error: " ++ index_error_str env 1 1) ] |}.
Proof.
  refine (conj eq_refl (conj (le_n 2) _)).
  exact (too_few_probabilities
           (scripted_env (Ret tt) (Ret [[1%float]]) (Ret tt) (Ret []) true)
           tt example_record 0%nat 1%nat [1%float] [] eq_refl (le_n 2)).
Defined.

Lemma explainer_failure_keeps_results_witness :
  let e := ValueError "Model type not yet supported by TreeExplainer" in
  let env := scripted_env (Ret tt) (Ret [[0.75; 0.25]%float]) (Raise e)
                          (Ret []) true in
  predict_proba env tt (input_df example_record) 0%nat
  = (Ret [[0.75; 0.25]%float], 1%nat)
  /\ TreeExplainer env tt 1%nat = (Raise e, 2%nat)
  /\ is_Exception e = true
  /\ predict_risk env tt example_record 0%nat
     = {| result := Ret tt; ext := 2%nat;
          trace := (Predict_proba tt (input_df example_record)
                      :: results env 0.25%float
                      ++ [ St_markdown "---" false;
                           St_subheader "Model Interpretation";
                           New_TreeExplainer tt;
                           St_error ("Error: " ++ str e) ])%list |}.
Proof.
  refine (conj eq_refl (conj eq_refl (conj eq_refl _))).
  exact (explainer_failure_keeps_results
           (scripted_env (Ret tt) (Ret [[0.75; 0.25]%float])
              (Raise (ValueError "Model type not yet supported by TreeExplainer"))
              (Ret []) true)
           tt example_record 0%nat 1%nat 2%nat [[0.75; 0.25]%float]
           [0.75; 0.25]%float 0.25%float
           (ValueError "Model type not yet supported by TreeExplainer")
           eq_refl eq_refl eq_refl eq_refl eq_refl).
Defined.

Lemma handler_success_witness :
  let env := stub_env [] true in
  let X := input_df example_record in
  let zeros := map (fun _ : string => 0) (columns X) in
  predict_proba env tt X 0%nat = (Ret [[0.25; 0.75]%float], 1%nat)
  /\ TreeExplainer env tt 1%nat = (Ret tt, 2%nat)
  /\ shap_values env tt X 2%nat = (Ret [zeros; zeros], 3%nat)
  /\ summary_plot env [zeros; zeros] X 3%nat = (Ret "summary", 4%nat)
  /\ pyplot env "summary" = Ret tt
  /\ force_plot env (expected_value env tt) zeros X 4%nat = (Ret "force", 5%nat)
  /\ pyplot env "force" = Ret tt
  /\ predict_risk env tt example_record 0%nat
     = {| result := Ret tt; ext := 5%nat;
          trace := (Predict_proba tt X
                      :: results env 0.75%float
                      ++ [ St_markdown "---" false;
                           St_subheader "Model Interpretation";
                           New_TreeExplainer tt;
                           Shap_values tt X;
                           St_expander "Global Feature Importance";
                           Summary_plot [zeros; zeros] X "bar" false;
                           St_pyplot "summary";
                           St_expander "Individual Feature Impact";
                           Force_plot (expected_value env tt) zeros X true;
                           St_pyplot "force" ])%list |}.
Proof.
  refine (conj eq_refl (conj eq_refl (conj eq_refl (conj eq_refl
            (conj eq_refl (conj eq_refl (conj eq_refl _))))))).
  exact (handler_success (stub_env [] true) tt example_record
           0%nat 1%nat 2%nat 3%nat 4%nat 5%nat
           [[0.25; 0.75]%float] [0.25; 0.75]%float 0.75%float tt
           [map (fun _ : string => 0) (columns (input_df example_record));
            map (fun _ : string => 0) (columns (input_df example_record))]
           (map (fun _ : string => 0) (columns (input_df example_record)))
           "summary" "force"
           eq_refl eq_refl eq_refl eq_refl eq_refl eq_refl eq_refl eq_refl
           eq_refl eq_refl).
Defined.

Lemma app_model_unavailable_witness :
  let e := FileNotFoundError "[Errno 2] No such file or directory: '/app/best_model.pkl'" in
  let env := scripted_env (Raise e) (Ret []) (Ret tt) (Ret []) true in
  joblib_load env (model_path env) 0%nat = (Raise e, 1%nat)
  /\ result (app env 0%nat) = Raise e
  /\ ext (app env 0%nat) = 1%nat
  /\ trace (app env 0%nat) = [Joblib_load (abspath env "best_model.pkl")]
  /\ filter is_page (trace (app env 0%nat)) = [].
Proof.
  split; [reflexivity |].
  exact (app_model_unavailable
           (scripted_env
              (Raise (FileNotFoundError "[Errno 2] No such file or directory: '/app/best_model.pkl'"))
              (Ret []) (Ret tt) (Ret []) true)
           0%nat 1%nat
           (FileNotFoundError "[Errno 2] No such file or directory: '/app/best_model.pkl'")
           eq_refl).
Defined.

Lemma app_without_click_witness :
  let env := stub_env [] false in
  joblib_load env (model_path env) 0%nat = (Ret tt, 1%nat)
  /\ button env "Predict Risk" = false
  /\ app env 0%nat
     = {| result := Ret tt; ext := 1%nat;
          trace := (Joblib_load (model_path env)
                      :: page_head ++ form_widgets VARIABLE_CONFIG
                      ++ [ St_button "Predict Risk" "primary";
                           St_sidebar_markdown USER_GUIDE ])%list |}
  /\ pick call_of (trace (app env 0%nat)) = [Call_joblib_load].
Proof.
  refine (conj eq_refl (conj eq_refl _)).
  exact (app_without_click (stub_env [] false) 0%nat 1%nat tt eq_refl eq_refl).
Defined.

Lemma app_clicked_witness :
  let env := stub_env [] true in
  let handled := predict_risk env tt (form_inputs env) 1%nat in
  joblib_load env (model_path env) 0%nat = (Ret tt, 1%nat)
  /\ button env "Predict Risk" = true
  /\ result (app env 0%nat) = result handled
  /\ ext (app env 0%nat) = ext handled
  /\ trace (app env 0%nat)
     = (Joblib_load (model_path env)
          :: page_head ++ form_widgets VARIABLE_CONFIG
          ++ [St_button "Predict Risk" "primary"]
          ++ trace handled
          ++ match result handled with
             | Ret _ => [St_sidebar_markdown USER_GUIDE]
             | Raise _ => []
             end)%list.
Proof.
  refine (conj eq_refl (conj eq_refl _)).
  exact (app_clicked (stub_env [] true) 0%nat 1%nat tt eq_refl eq_refl).
Defined.

(** A click, and the user interrupts the classifier: the widgets are all
    there, and the run ends with the interrupt, which is no [Exception]. *)
Lemma page_completed_after_load_witness :
  let env := scripted_env (Ret tt) (Raise KeyboardInterrupt) (Ret tt) (Ret []) true in
  joblib_load env (model_path env) 0%nat = (Ret tt, 1%nat)
  /\ pick widget_of (trace (app env 0%nat))
     = map widget_args (items VARIABLE_CONFIG)
  /\ match result (app env 0%nat) with
     | Ret _ =>
         last (trace (app env 0%nat)) (St_columns 0)
         = St_sidebar_markdown USER_GUIDE
     | Raise e =>
         is_Exception e = false /\ button env "Predict Risk" = true
     end.
Proof.
  split; [reflexivity |].
  exact (page_completed_after_load
           (scripted_env (Ret tt) (Raise KeyboardInterrupt) (Ret tt) (Ret []) true)
           0%nat 1%nat tt eq_refl).
Defined.

Lemma form_layout_witness :
  let r := form (stub_env [] true) (enumerate (items VARIABLE_CONFIG)) [] 0%nat in
  Forall (fun item => accepted (widget_args item) = true) (items VARIABLE_CONFIG)
  /\ (exists d, result r = Ret d)
  /\ ext r = 0%nat
  /\ List.length (trace r) = List.length VARIABLE_CONFIG
  /\ pick widget_of (trace r) = map widget_args (items VARIABLE_CONFIG)
  /\ pick column_of (trace r)
     = map (fun k => (k mod 2)%nat) (seq 0 (List.length VARIABLE_CONFIG))
  /\ Forall (fun col => (col < 2)%nat) (pick column_of (trace r)).
Proof.
  split; [exact VARIABLE_CONFIG_accepted |].
  exact (form_layout (stub_env [] true) VARIABLE_CONFIG [] 0%nat
           VARIABLE_CONFIG_accepted).
Defined.

Lemma Sex_accepted :
  Forall (fun item => accepted (widget_args item) = true)
         [("Sex", Config.make 0 1 "Patient gender (0=Female, 1=Male)")].
Proof. repeat constructor. Qed.

(** A registry whose second field, "Age", has min 18 and max 0: the
    widget of "Sex" is shown, the widget of "Age" is refused, and "CHF"
    gets no widget. *)
Lemma form_refused_witness :
  let env := stub_env [] true in
  let sex := ("Sex", Config.make 0 1 "Patient gender (0=Female, 1=Male)") in
  let age := ("Age", Config.make 18 0 "Age in years") in
  let r := form env (enumerate (items bad_registry)) [] 0%nat in
  Forall (fun item => accepted (widget_args item) = true) [sex]
  /\ accepted (widget_args age) = false
  /\ result r
     = Raise {| is_Exception := true;
                str := number_input_error env (widget_args age) |}
  /\ ext r = 0%nat
  /\ pick widget_of (trace r) = map widget_args ([sex] ++ [age])%list.
Proof.
  cbv zeta. split; [exact Sex_accepted | split; [reflexivity |]].
  exact (form_refused (stub_env [] true)
           [("Sex", Config.make 0 1 "Patient gender (0=Female, 1=Male)")]
           [("CHF", Config.make 0 1 "Congestive heart failure")]
           "Age" (Config.make 18 0 "Age in years") [] 0%nat
           Sex_accepted eq_refl).
Defined.

Lemma pyplot_refused_witness :
  let e := StreamlitAPIException "st.pyplot was given no figure" in
  let env := with_pyplot (stub_env [] true) (Raise e) in
  let X := input_df example_record in
  let zeros := map (fun _ : string => 0) (columns X) in
  predict_proba env tt X 0%nat = (Ret [[0.25; 0.75]%float], 1%nat)
  /\ TreeExplainer env tt 1%nat = (Ret tt, 2%nat)
  /\ shap_values env tt X 2%nat = (Ret [zeros; zeros], 3%nat)
  /\ summary_plot env [zeros; zeros] X 3%nat = (Ret "summary", 4%nat)
  /\ pyplot env "summary" = Raise e
  /\ is_Exception e = true
  /\ predict_risk env tt example_record 0%nat
     = {| result := Ret tt; ext := 4%nat;
          trace := (Predict_proba tt X
                      :: results env 0.75%float
                      ++ [ St_markdown "---" false;
                           St_subheader "Model Interpretation";
                           New_TreeExplainer tt;
                           Shap_values tt X;
                           St_expander "Global Feature Importance";
                           Summary_plot [zeros; zeros] X "bar" false;
                           St_pyplot "summary";
                           St_error ("Error: " ++ str e) ])%list |}
  /\ count is_force_plot (trace (predict_risk env tt example_record 0%nat))
     = 0%nat.
Proof.
  refine (conj eq_refl (conj eq_refl (conj eq_refl (conj eq_refl
            (conj eq_refl (conj eq_refl _)))))).
  exact (pyplot_refused
           (with_pyplot (stub_env [] true)
              (Raise (StreamlitAPIException "st.pyplot was given no figure")))
           tt example_record 0%nat 1%nat 2%nat 3%nat 4%nat
           [[0.25; 0.75]%float] [0.25; 0.75]%float 0.75%float tt
           [map (fun _ : string => 0) (columns (input_df example_record));
            map (fun _ : string => 0) (columns (input_df example_record))]
           "summary"
           (StreamlitAPIException "st.pyplot was given no figure")
           eq_refl eq_refl eq_refl eq_refl eq_refl eq_refl eq_refl eq_refl).
Defined.

(* ===================================================================== *)
(** ** Validation and completeness of the record *)
(* ===================================================================== *)





Section Validation.
Context {LibState Model Explainer ShapRow Expected Fig : Type}.
Variable env : Env LibState Model Explainer ShapRow Expected Fig.

#[local] Abbreviation Ev := (Event Model Explainer ShapRow Expected Fig).









End Validation.




